(** * aiowithings: the transport client, the measurement model and the aggregator

    The development embeds [src/aiowithings/withings.py] (the
    [WithingsClient] dataclass and its coroutines) as state-passing
    functions over an explicit event trace, and the measurement core
    ([models.py], [helpers.py]) as pure functions.  *)

From Stdlib Require Import ZArith String Ascii List Bool Lia.
From Stdlib Require SpecFloat FloatOps.
From stdpp Require Import base option list strings pretty gmap.

Local Open Scope string_scope.
Local Open Scope Z_scope.

(** ** Python values and exceptions *)

(** What the interpreter and the installed distribution provide: the
    carrier of [float], [datetime] with its [timestamp()] method, and
    [importlib.metadata.version(__package__)], which raises
    [PackageNotFoundError] (here [None]) when the distribution is not
    installed. *)
Class Platform := {
  float : Type;
  datetime : Type;
  timestamp : datetime -> float;
  metadata_version : option string
}.

(** The error classes exported by [__init__.py]. *)
Inductive WithingsErrorKind :=
| WithingsError
| WithingsConnectionError
| WithingsAuthenticationFailedError
| WithingsInvalidParamsError
| WithingsUnauthorizedError
| WithingsErrorOccurredError
| WithingsBadStateError
| WithingsTooManyRequestsError
| WithingsUnknownStatusError.

#[global] Instance WithingsErrorKind_eq_dec : EqDecision WithingsErrorKind.
Proof. solve_decision. Defined.

(** The kinds named after a status code of the API envelope. *)
Definition status_kinds : list WithingsErrorKind :=
  [ WithingsInvalidParamsError; WithingsUnauthorizedError;
    WithingsErrorOccurredError; WithingsBadStateError;
    WithingsTooManyRequestsError; WithingsUnknownStatusError ].

Section Values.
Context `{Platform}.

(** [Any]: the values that travel through [dict[str, Any]]. A dict is
    kept as its items in insertion order. *)
#[warnings="-register-all"]
Inductive Any :=
| PNone
| PBool (b : bool)
| PInt (n : Z)
| PFloat (x : float)
| PStr (s : string)
| PList (l : list Any)
| PDict (items : list (string * Any)).

(** A raised exception: one of the package's classes with its
    constructor arguments, [asyncio.TimeoutError], or an exception of
    another library that the client lets through. *)
Inductive Exception :=
| Withings (kind : WithingsErrorKind) (msg : string)
           (info : list (string * string))
| TimeoutError
| Foreign (name : string).

Inductive Result (A : Type) :=
| Ok (a : A)
| Raise (e : Exception).

End Values.

Arguments Ok {A} a.
Arguments Raise {A} e.

(** ** Dictionaries and strings *)

Section Dicts.
Context {V : Type}.

(** [d.get(k)] *)
Fixpoint dict_get (d : list (string * V)) (k : string) : option V :=
  match d with
  | [] => None
  | (k', v) :: d' => if String.eqb k' k then Some v else dict_get d' k
  end.

(** [d[k] = v]: an existing key keeps its position. *)
Fixpoint dict_set (d : list (string * V)) (k : string) (v : V)
  : list (string * V) :=
  match d with
  | [] => [(k, v)]
  | (k', v') :: d' =>
      if String.eqb k' k then (k', v) :: d' else (k', v') :: dict_set d' k v
  end.

End Dicts.

(** [sub in s] *)
Fixpoint contains (sub s : string) : bool :=
  String.prefix sub s ||
  match s with
  | EmptyString => false
  | String _ s' => contains sub s'
  end.

(** [sep.join(parts)] *)
Fixpoint join (sep : string) (parts : list string) : string :=
  match parts with
  | [] => ""
  | [p] => p
  | p :: rest => p ++ sep ++ join sep rest
  end.

Definition lower_ascii (c : ascii) : ascii :=
  let n := nat_of_ascii c in
  if (65 <=? n)%nat && (n <=? 90)%nat then ascii_of_nat (n + 32) else c.

Fixpoint lower (s : string) : string :=
  match s with
  | EmptyString => EmptyString
  | String c s' => String (lower_ascii c) (lower s')
  end.

(** [headers.get(key, default)] on aiohttp's case-insensitive
    multi-dict: the first value stored under the key. *)
Fixpoint headers_get (hs : list (string * string)) (key default : string)
  : string :=
  match hs with
  | [] => default
  | (k, v) :: hs' =>
      if String.eqb (lower k) (lower key) then v
      else headers_get hs' key default
  end.

(** The bytes that continue a character in UTF-8. *)
Definition continuation (c : ascii) : bool :=
  let n := nat_of_ascii c in (128 <=? n)%nat && (n <? 192)%nat.

(** The characters of a string, each with the bytes that encode it: a
    byte joins the bytes after it when they start with a continuation
    byte. *)
Fixpoint code_points (s : string) : list string :=
  match s with
  | EmptyString => []
  | String c s' =>
      match code_points s' with
      | String c' p :: ps =>
          if continuation c' then String c (String c' p) :: ps
          else String c "" :: String c' p :: ps
      | ps => String c "" :: ps
      end
  end.

(** [f"{token}"] for [token: str | None]. *)
Definition format_optional (o : option string) : string :=
  match o with
  | Some s => s
  | None => "None"
  end.

(** ** [withings.py] *)

Module withings.

(** [yarl.URL] as its components. *)
Record URL := {
  scheme : string;
  host : string;
  port : Z;
  path : string
}.

(** The characters of a host name made of letters, digits, dots and
    hyphens. *)
Definition host_char (c : ascii) : bool :=
  let n := nat_of_ascii c in
  ((97 <=? n)%nat && (n <=? 122)%nat) || ((65 <=? n)%nat && (n <=? 90)%nat)
  || ((48 <=? n)%nat && (n <=? 57)%nat) || (n =? 45)%nat || (n =? 46)%nat.

(** The hosts [URL.build] takes without an error and without an
    encoding of its own: not empty, of host characters only. *)
Definition valid_host (host : string) : bool :=
  negb (String.eqb host "") && forallb host_char (list_ascii_of_string host).

(** [URL.build(scheme=..., host=..., port=...)]: the host is kept in
    lower case. The library refuses an empty host and a host with
    characters it does not allow, and converts a host outside ASCII;
    what is written here is what it builds for a [valid_host]. *)
Definition URL_build (scheme host : string) (port : Z) : URL :=
  {| scheme := scheme; host := lower host; port := port; path := "" |}.

(** The uris [joinpath] refuses: those that start with a slash. *)
Definition relative (uri : string) : bool := negb (String.prefix "/" uri).

(** The characters [joinpath] leaves as they are in a segment. *)
Definition segment_char (c : ascii) : bool :=
  let n := nat_of_ascii c in
  ((97 <=? n)%nat && (n <=? 122)%nat) || ((65 <=? n)%nat && (n <=? 90)%nat)
  || ((48 <=? n)%nat && (n <=? 57)%nat) || (n =? 45)%nat || (n =? 95)%nat.

(** Segments of such characters, none empty, with single slashes
    between them. *)
Fixpoint plain_segments (at_start : bool) (s : string) : bool :=
  match s with
  | EmptyString => negb at_start
  | String c s' =>
      if (nat_of_ascii c =? 47)%nat
      then negb at_start && plain_segments true s'
      else segment_char c && plain_segments false s'
  end.

(** The uris that [joinpath] appends unchanged: relative, with nothing
    to quote and no dot segment to resolve. *)
Definition plain_uri (uri : string) : bool := plain_segments true uri.

(** [url.joinpath(uri)]. The library raises [ValueError] for a uri that
    is not [relative], quotes the characters a path may not hold and
    resolves dot segments; what is written here is what it builds for a
    [plain_uri], the client's own uris among them. *)
Definition joinpath (u : URL) (uri : string) : URL :=
  {| scheme := scheme u; host := host u; port := port u;
     path := path u ++ "/" ++ uri |}.

Definition METH_POST : string := "POST".

(** An [aiohttp.ClientSession] object, by identity. *)
Definition ClientSession := nat.

(** The dataclass fields, in declaration order. *)
Record WithingsClient := {
  session : option ClientSession;
  request_timeout : Z;
  api_host : string;
  _token : option string;
  _close_session : bool
}.

(** The generated [__init__]: [None] stands for an argument that the
    caller leaves out. *)
Definition init (session : option ClientSession)
    (request_timeout : option Z) (api_host : option string)
    (_token : option string) (_close_session : option bool)
  : WithingsClient :=
  {| session := session;
     request_timeout := default 10 request_timeout;
     api_host := default "wbsapi.withings.net" api_host;
     _token := _token;
     _close_session := default false _close_session |}.

Section Client.
Context `{Platform}.

(** What [aiohttp] hands back for one request: the headers, what
    [await response.text()] returns, and what [await response.json()]
    returns or, by name, the exception it raises. *)
Record ClientResponse := {
  headers : list (string * string);
  text : string;
  json : string + Any
}.

(** How the awaited [session.request] inside the
    [async_timeout.timeout] block ends: with a response, with the
    deadline elapsing ([asyncio.TimeoutError]), or with another
    exception. *)
Inductive Outcome :=
| Responded (r : ClientResponse)
| TimedOut
| Failed (name : string).

(** What the client does to the outside world. *)
Inductive Event :=
| SessionCreated (s : ClientSession)
| RequestSent (s : ClientSession) (deadline : Z) (method : string)
              (url : URL) (hdrs : list (string * string))
              (data : option (list (string * Any)))
| SessionClosed (s : ClientSession).

Record State := {
  self : WithingsClient;
  trace : list Event;
  next_session : ClientSession
}.

(** Coroutines: state passing, with the state kept when an
    exception is raised. *)
Definition M (A : Type) : Type := State -> Result A * State.

Definition ret {A} (a : A) : M A := fun st => (Ok a, st).

Definition raise {A} (e : Exception) : M A := fun st => (Raise e, st).

Definition bind {A B} (m : M A) (k : A -> M B) : M B :=
  fun st =>
    match m st with
    | (Ok a, st') => k a st'
    | (Raise e, st') => (Raise e, st')
    end.

Definition lift {A} (r : Result A) : M A := fun st => (r, st).

(** The value of a library call, or the library's exception let
    through. *)
Definition library {A} (r : string + A) : Result A :=
  match r with
  | inl name => Raise (Foreign name)
  | inr a => Ok a
  end.

Definition get_self : M WithingsClient := fun st => (Ok (self st), st).

Definition set_self (c : WithingsClient) : M unit :=
  fun st => (Ok tt, {| self := c; trace := trace st;
                       next_session := next_session st |}).

Definition emit (e : Event) : M unit :=
  fun st => (Ok tt, {| self := self st; trace := trace st ++ [e];
                       next_session := next_session st |}).

(** [ClientSession()] *)
Definition new_ClientSession : M ClientSession :=
  fun st =>
    let s := next_session st in
    (Ok s, {| self := self st; trace := trace st ++ [SessionCreated s];
              next_session := S s |}).

(** [importlib.metadata.version(__package__)] *)
Definition version : M string :=
  match metadata_version with
  | Some v => ret v
  | None => raise (Foreign "PackageNotFoundError")
  end.

Notation "x <- m ;; k" := (bind m (fun x => k))
  (at level 100, m at next level, right associativity).

(** [try: m except asyncio.TimeoutError: handler] *)
Definition except_TimeoutError {A} (m handler : M A) : M A :=
  fun st =>
    match m st with
    | (Raise TimeoutError, st') => handler st'
    | r => r
    end.

(** [async with async_timeout.timeout(delay):
       response = await self.session.request(method, url, ...)] *)
Definition session_request (delay : Z) (method : string) (url : URL)
    (hdrs : list (string * string)) (data : option (list (string * Any)))
    (reply : Outcome) : M ClientResponse :=
  c <- get_self ;;
  match session c with
  | None => raise (Foreign "AttributeError")
  | Some s =>
      _ <- emit (RequestSent s delay method url hdrs data) ;;
      match reply with
      | Responded r => ret r
      | TimedOut => raise TimeoutError
      | Failed name => raise (Foreign name)
      end
  end.

Definition authenticate (token : string) : M unit :=
  c <- get_self ;;
  set_self {| session := session c;
              request_timeout := request_timeout c;
              api_host := api_host c;
              _token := Some token;
              _close_session := _close_session c |}.

Definition _request (uri : string) (data : option (list (string * Any)))
    (reply : Outcome) : M Any :=
  version <- version ;;
  c <- get_self ;;
  let url := joinpath (URL_build "https" (api_host c) 443) uri in
  let hdrs :=
    [ ("User-Agent", "AioWithings/" ++ version);
      ("Accept", "application/json, text/plain, */*");
      ("Authorization", "Bearer " ++ format_optional (_token c)) ] in
  _ <- match session c with
       | None =>
           s <- new_ClientSession ;;
           set_self {| session := Some s;
                       request_timeout := request_timeout c;
                       api_host := api_host c;
                       _token := _token c;
                       _close_session := true |}
       | Some _ => ret tt
       end ;;
  c <- get_self ;;
  response <- except_TimeoutError
                (session_request (request_timeout c) METH_POST url hdrs
                   data reply)
                (raise (Withings WithingsConnectionError
                          "Timeout occurred while connecting to Withings"
                          [])) ;;
  let content_type := headers_get (headers response) "Content-Type" "" in
  if negb (contains "application/json" content_type) then
    let text := text response in
    raise (Withings WithingsError "Unexpected response from Withings"
             [("Content-Type", content_type); ("response", text)])
  else lift (library (json response)).

(** [v[k]] for a string key. *)
Definition getitem (v : Any) (k : string) : Result Any :=
  match v with
  | PDict items =>
      match dict_get items k with
      | Some x => Ok x
      | None => Raise (Foreign "KeyError")
      end
  | _ => Raise (Foreign "TypeError")
  end.

(** [for x in v]: the items of a list, the keys of a dict, the
    characters of a string. *)
Definition iter (v : Any) : Result (list Any) :=
  match v with
  | PList l => Ok l
  | PDict items => Ok (map (fun kv => PStr (fst kv)) items)
  | PStr s => Ok (map PStr (code_points s))
  | _ => Raise (Foreign "TypeError")
  end.

(** [[f(x) for x in l]]: the first exception ends the comprehension. *)
Fixpoint comprehension {A B} (f : A -> Result B) (l : list A)
  : Result (list B) :=
  match l with
  | [] => Ok []
  | x :: l' =>
      match f x with
      | Raise e => Raise e
      | Ok y =>
          match comprehension f l' with
          | Raise e => Raise e
          | Ok ys => Ok (y :: ys)
          end
      end
  end.

(** The classes of [models.py] that the client imports, with the
    [from_api] factories it calls and [str] on a measurement type. *)
Class Models := {
  Device : Type;
  Goals : Type;
  MeasurementGroup : Type;
  MeasurementType : Type;
  Device_from_api : Any -> Result Device;
  Goals_from_api : Any -> Result Goals;
  MeasurementGroup_from_api : Any -> Result MeasurementGroup;
  MeasurementType_str : MeasurementType -> string
}.

Context `{Models}.

Definition get_devices (reply : Outcome) : M (list Device) :=
  response <- _request "v2/user" (Some [("action", PStr "getdevice")]) reply ;;
  body <- lift (getitem response "body") ;;
  devices <- lift (getitem body "devices") ;;
  devices <- lift (iter devices) ;;
  lift (comprehension Device_from_api devices).

Definition get_goals (reply : Outcome) : M Goals :=
  response <- _request "v2/user" (Some [("action", PStr "getgoals")]) reply ;;
  body <- lift (getitem response "body") ;;
  goals <- lift (getitem body "goals") ;;
  lift (Goals_from_api goals).

Definition _get_measurements
    (measurement_types : option (list MeasurementType))
    (base_data : list (string * Any)) (reply : Outcome)
  : M (list MeasurementGroup) :=
  let data := dict_set base_data "action" (PStr "getmeas") in
  let data :=
    match measurement_types with
    | Some measurement_types =>
        dict_set data "meastypes"
          (PStr (join "," (map MeasurementType_str measurement_types)))
    | None => data
    end in
  response <- _request "measure" (Some data) reply ;;
  body <- lift (getitem response "body") ;;
  measuregrps <- lift (getitem body "measuregrps") ;;
  measuregrps <- lift (iter measuregrps) ;;
  lift (comprehension MeasurementGroup_from_api measuregrps).

Definition get_measurement_since (measurement_since : datetime)
    (measurement_types : option (list MeasurementType)) (reply : Outcome)
  : M (list MeasurementGroup) :=
  _get_measurements measurement_types
    [("lastupdate", PFloat (timestamp measurement_since))] reply.

Definition get_measurement_in_period (start_date end_date : datetime)
    (measurement_types : option (list MeasurementType)) (reply : Outcome)
  : M (list MeasurementGroup) :=
  _get_measurements measurement_types
    [ ("startdate", PFloat (timestamp start_date));
      ("enddate", PFloat (timestamp end_date)) ] reply.

(** [if self.session and self._close_session]: a session object is
    always truthy. *)
Definition close : M unit :=
  c <- get_self ;;
  match session c with
  | Some s => if _close_session c then emit (SessionClosed s) else ret tt
  | None => ret tt
  end.

Definition __aenter__ : M WithingsClient := get_self.

Definition __aexit__ : M unit := close.

(** One use of the client by its caller; a call that reaches the network
    comes with what the network answers. *)
Inductive Call :=
| call_authenticate (token : string)
| call__request (uri : string) (data : option (list (string * Any)))
                (reply : Outcome)
| call_get_devices (reply : Outcome)
| call_get_goals (reply : Outcome)
| call_get_measurement_since (measurement_since : datetime)
    (measurement_types : option (list MeasurementType)) (reply : Outcome)
| call_get_measurement_in_period (start_date end_date : datetime)
    (measurement_types : option (list MeasurementType)) (reply : Outcome)
| call_close
| call___aenter__
| call___aexit__.

(** The state after a call, whether it returned or raised. *)
Definition exec (call : Call) (st : State) : State :=
  match call with
  | call_authenticate token => snd (authenticate token st)
  | call__request uri data reply => snd (_request uri data reply st)
  | call_get_devices reply => snd (get_devices reply st)
  | call_get_goals reply => snd (get_goals reply st)
  | call_get_measurement_since since types reply =>
      snd (get_measurement_since since types reply st)
  | call_get_measurement_in_period start_date end_date types reply =>
      snd (get_measurement_in_period start_date end_date types reply st)
  | call_close => snd (close st)
  | call___aenter__ => snd (__aenter__ st)
  | call___aexit__ => snd (__aexit__ st)
  end.

Definition run (calls : list Call) (st : State) : State :=
  fold_left (fun st call => exec call st) calls st.

(** A client fresh from its constructor, before any call. *)
Definition start (c : WithingsClient) (next : ClientSession) : State :=
  {| self := c; trace := []; next_session := next |}.

(** *** Reading a trace *)

(** The sessions the client opened, the sessions it closed, and the
    deadline of each request it sent, in order. *)
Definition created (t : list Event) : list ClientSession :=
  omap (fun e => match e with SessionCreated s => Some s | _ => None end) t.

Definition closed (t : list Event) : list ClientSession :=
  omap (fun e => match e with SessionClosed s => Some s | _ => None end) t.

Definition deadlines (t : list Event) : list Z :=
  omap (fun e => match e with
                 | RequestSent _ deadline _ _ _ _ => Some deadline
                 | _ => None
                 end) t.

(** The headers [_request] builds. *)
Definition request_headers (version : string) (c : WithingsClient)
  : list (string * string) :=
  [ ("User-Agent", "AioWithings/" ++ version);
    ("Accept", "application/json, text/plain, */*");
    ("Authorization", "Bearer " ++ format_optional (_token c)) ].

(** The event of the one request [_request] sends on session [s]. *)
Definition request_event (version : string) (c : WithingsClient)
    (s : ClientSession) (uri : string)
    (data : option (list (string * Any))) : Event :=
  RequestSent s (request_timeout c) METH_POST
    (joinpath (URL_build "https" (api_host c) 443) uri)
    (request_headers version c) data.

(** The state in which [_request] leaves the client once the request is
    out: the session is created first when the client has none. *)
Definition after_request (version uri : string)
    (data : option (list (string * Any))) (st : State) : State :=
  let c := self st in
  match session c with
  | Some s =>
      {| self := c;
         trace := trace st ++ [request_event version c s uri data];
         next_session := next_session st |}
  | None =>
      let s := next_session st in
      {| self := {| session := Some s;
                    request_timeout := request_timeout c;
                    api_host := api_host c;
                    _token := _token c;
                    _close_session := true |};
         trace := (trace st ++ [SessionCreated s])
                    ++ [request_event version c s uri data];
         next_session := S s |}
  end.

(** What [_request] returns or raises for each way the request ends. *)
Definition answer (reply : Outcome) : Result Any :=
  match reply with
  | Responded r =>
      let content_type := headers_get (headers r) "Content-Type" "" in
      if contains "application/json" content_type then library (json r)
      else Raise (Withings WithingsError "Unexpected response from Withings"
                    [("Content-Type", content_type); ("response", text r)])
  | TimedOut =>
      Raise (Withings WithingsConnectionError
               "Timeout occurred while connecting to Withings" [])
  | Failed name => Raise (Foreign name)
  end.

(** What holds of a client built by [c] with [_close_session] left at
    its default, however it is used afterwards: either it has opened and
    closed nothing and still holds the session it was built with, or it
    was built without a session, has opened exactly one, holds it, and
    has closed nothing else. *)
Definition session_invariant (c : WithingsClient) (st : State) : Prop :=
  (created (trace st) = [] /\ closed (trace st) = [] /\
   session (self st) = session c /\ _close_session (self st) = false)
  \/
  (exists s, session c = None /\ session (self st) = Some s /\
             _close_session (self st) = true /\
             created (trace st) = [s] /\
             forall s', In s' (closed (trace st)) -> s' = s).

(** The reply of a call that reaches the network. *)
Definition reply_of (call : Call) : option Outcome :=
  match call with
  | call__request _ _ reply
  | call_get_devices reply
  | call_get_goals reply
  | call_get_measurement_since _ _ reply
  | call_get_measurement_in_period _ _ _ reply => Some reply
  | _ => None
  end.

(** The uri a call passes to [_request]. *)
Definition uri_of (call : Call) : option string :=
  match call with
  | call__request uri _ _ => Some uri
  | call_get_devices _ | call_get_goals _ => Some "v2/user"
  | call_get_measurement_since _ _ _
  | call_get_measurement_in_period _ _ _ _ => Some "measure"
  | _ => None
  end.

(** The session each request went out on, in order. *)
Definition sent_on (t : list Event) : list ClientSession :=
  omap (fun e => match e with
                 | RequestSent s _ _ _ _ _ => Some s
                 | _ => None
                 end) t.

(** The calls that close: [close] itself and [__aexit__]. *)
Definition closes (call : Call) : bool :=
  match call with
  | call_close | call___aexit__ => true
  | _ => false
  end.

(** The token a sequence of calls leaves in the client: that of the last
    [authenticate], or the one it started with. *)
Definition last_token (calls : list Call) (token : option string)
  : option string :=
  fold_left (fun token call =>
               match call with
               | call_authenticate t => Some t
               | _ => token
               end) calls token.

(** [async with client as c: body(c)]: [__aexit__] runs when the body
    returns and when it raises, and as it returns [None] the exception
    of the body is raised again after it. *)
Definition async_with {A} (body : WithingsClient -> M A) : M A :=
  fun st =>
    match __aenter__ st with
    | (Raise e, st1) => (Raise e, st1)
    | (Ok c, st1) =>
        match body c st1 with
        | (r, st2) =>
            match __aexit__ st2 with
            | (Raise e, st3) => (Raise e, st3)
            | (Ok _, st3) => (r, st3)
            end
        end
    end.

End Client.

End withings.

(** ** [__init__.py] *)

Module package.

(** The names the module imports, statement by statement. *)
Definition imported : list string :=
  [ "WithingsAuthenticationFailedError"; "WithingsBadStateError";
    "WithingsConnectionError"; "WithingsError";
    "WithingsErrorOccurredError"; "WithingsInvalidParamsError";
    "WithingsTooManyRequestsError"; "WithingsUnauthorizedError";
    "WithingsUnknownStatusError";
    "aggregate_measurements";
    "Device"; "DeviceBattery"; "DeviceModel"; "DeviceType"; "Goals";
    "Measurement"; "MeasurementGroup"; "MeasurementGroupAttribution";
    "MeasurementGroupCategory"; "MeasurementType"; "NotificationCategory";
    "Services"; "WebhookCall";
    "get_measurement_type_from_notification_category";
    "WithingsClient" ].

Definition __all__ : list string :=
  [ "DeviceBattery"; "Device"; "DeviceType"; "DeviceModel";
    "WithingsError"; "WithingsConnectionError";
    "WithingsAuthenticationFailedError"; "WithingsInvalidParamsError";
    "WithingsUnauthorizedError"; "WithingsErrorOccurredError";
    "WithingsBadStateError"; "WithingsTooManyRequestsError";
    "WithingsUnknownStatusError"; "WithingsClient"; "Goals";
    "MeasurementGroupAttribution"; "MeasurementGroupCategory";
    "MeasurementGroup"; "MeasurementType"; "Measurement";
    "get_measurement_type_from_notification_category";
    "aggregate_measurements"; "NotificationCategory"; "Services";
    "WebhookCall" ].

(** The class name of each error kind. *)
Definition class_name (kind : WithingsErrorKind) : string :=
  match kind with
  | WithingsError => "WithingsError"
  | WithingsConnectionError => "WithingsConnectionError"
  | WithingsAuthenticationFailedError => "WithingsAuthenticationFailedError"
  | WithingsInvalidParamsError => "WithingsInvalidParamsError"
  | WithingsUnauthorizedError => "WithingsUnauthorizedError"
  | WithingsErrorOccurredError => "WithingsErrorOccurredError"
  | WithingsBadStateError => "WithingsBadStateError"
  | WithingsTooManyRequestsError => "WithingsTooManyRequestsError"
  | WithingsUnknownStatusError => "WithingsUnknownStatusError"
  end.

End package.

(** ** The unit decoder *)

Module unit_decoder.
Import SpecFloat.

(** Modelled from the spec: [models.py] is not among the available
    sources. Section 4.1 asks for a binary floating-point type of double
    precision: the values are those of the Standard Library's
    specification of IEEE-754, at precision 53 and maximal exponent
    1024. *)
Definition binary64 : Type := spec_float.

(** Modelled from the spec: an integer as a double, rounded to nearest
    even when it has more than 53 significant bits. *)
Definition of_int (n : Z) : binary64 :=
  binary_normalize FloatOps.prec FloatOps.emax n 0 false.

(** Modelled from the spec: [10^exponent] as a double, the reciprocal of
    the positive power for a negative exponent. *)
Definition pow10 (exponent : Z) : binary64 :=
  if 0 <=? exponent then of_int (10 ^ exponent)
  else SFdiv FloatOps.prec FloatOps.emax (of_int 1)
         (of_int (10 ^ (- exponent))).

(** Modelled from the spec: section 4.1,
    [decode(mantissa, exponent) = mantissa * 10^exponent], the product
    of the two doubles. *)
Definition decode (mantissa exponent : Z) : binary64 :=
  SFmul FloatOps.prec FloatOps.emax (of_int mantissa) (pow10 exponent).


End unit_decoder.

(** ** [models.py] *)

Module models.

(** Modelled from the spec: [models.py] is not among the available
    sources. An enumeration is a table of rows (member name, integer
    code); a member is a row of the table, a code is converted by looking
    the table up, in declaration order. The tables themselves (the
    vendor's code lists) are parameters. *)
Definition Member : Type := string * Z.

Definition name (m : Member) : string := fst m.

Definition to_code (m : Member) : Z := snd m.

Definition from_code (decl : list Member) (code : Z) : option Member :=
  find (fun m => to_code m =? code) decl.

Definition codes (decl : list Member) : list Z := map to_code decl.

(** Modelled from the spec: the two policies of section 4.2 for a code
    that no member carries, fail with a decode error or keep the code in
    an "unknown" variant. *)
Inductive Policy :=
| FailFast
| UnknownVariant.

Inductive Enum :=
| Known (m : Member)
| Unknown (code : Z).

#[global] Instance Enum_eq_dec : EqDecision Enum.
Proof. solve_decision. Defined.

#[global] Instance Enum_countable : Countable Enum :=
  inj_countable'
    (fun e => match e with Known m => inl m | Unknown c => inr c end)
    (fun s => match s with inl m => Known m | inr c => Unknown c end)
    (fun e => match e with Known _ => eq_refl | Unknown _ => eq_refl end).

(** Modelled from the spec: a decode error names the field and the
    unrecognized code (section 7). *)
Record DecodeError := {
  field : string;
  code : Z
}.

(** Modelled from the spec: section 4.2, reading an integer code into
    an enumeration under either policy. *)
Definition decode_enum (policy : Policy) (decl : list Member)
    (field : string) (code : Z) : DecodeError + Enum :=
  match from_code decl code with
  | Some m => inr (Known m)
  | None =>
      match policy with
      | FailFast => inl {| field := field; code := code |}
      | UnknownVariant => inr (Unknown code)
      end
  end.

(** Modelled from the spec: what [models.py] fixes and the spec leaves
    open, the code tables of the four enumerations, the policy for
    unknown codes, and the Unit Decoder [decode(mantissa, exponent)],
    whose floating-point arithmetic is not modelled. *)
Class Core `{Platform} := {
  MeasurementType_decl : list Member;
  MeasurementGroupCategory_decl : list Member;
  MeasurementGroupAttribution_decl : list Member;
  DeviceModel_decl : list Member;
  policy : Policy;
  decode : Z -> Z -> float
}.

Section Model.
Context `{Core}.

Definition MeasurementType : Type := Enum.

(** Modelled from the spec: section 3, [Measurement]. *)
Record Measurement := {
  type : MeasurementType;
  value : float
}.

(** Modelled from the spec: section 3, [MeasurementGroup]. *)
Record MeasurementGroup := {
  measured_at : Z;
  category : Enum;
  attribution : Enum;
  device_id : option string;
  model : option Enum;
  measurements : list Measurement
}.

(** Modelled from the spec: section 6, the raw measurement payload. *)
Record RawMeasurement := {
  raw_type : Z;
  raw_value : Z;
  raw_unit : Z
}.

(** Modelled from the spec: section 6, the raw measurement-group
    payload. *)
Record RawMeasurementGroup := {
  raw_category : Z;
  raw_attribution : Z;
  raw_date : Z;
  raw_measures : list RawMeasurement;
  raw_deviceid : option string;
  raw_model : option Z
}.

(** Modelled from the spec: section 4.2, [Measurement.from_api]. *)
Definition Measurement_from_api (raw : RawMeasurement)
  : DecodeError + Measurement :=
  match decode_enum policy MeasurementType_decl "type" (raw_type raw) with
  | inl e => inl e
  | inr t => inr {| type := t; value := decode (raw_value raw) (raw_unit raw) |}
  end.

(** Mapping a fallible factory over a list, in order; the first error
    ends it. *)
Fixpoint traverse {A B} (f : A -> DecodeError + B) (l : list A)
  : DecodeError + list B :=
  match l with
  | [] => inr []
  | x :: l' =>
      match f x with
      | inl e => inl e
      | inr y =>
          match traverse f l' with
          | inl e => inl e
          | inr ys => inr (y :: ys)
          end
      end
  end.

(** Modelled from the spec: section 4.2, [MeasurementGroup.from_api]. *)
Definition MeasurementGroup_from_api (raw : RawMeasurementGroup)
  : DecodeError + MeasurementGroup :=
  match decode_enum policy MeasurementGroupCategory_decl "category"
          (raw_category raw) with
  | inl e => inl e
  | inr cat =>
      match decode_enum policy MeasurementGroupAttribution_decl "attribution"
              (raw_attribution raw) with
      | inl e => inl e
      | inr att =>
          match traverse Measurement_from_api (raw_measures raw) with
          | inl e => inl e
          | inr ms =>
              match
                match raw_model raw with
                | None => inr None
                | Some c =>
                    match decode_enum policy DeviceModel_decl "model" c with
                    | inl e => inl e
                    | inr m => inr (Some m)
                    end
                end
              with
              | inl e => inl e
              | inr mdl =>
                  inr {| measured_at := raw_date raw;
                         category := cat;
                         attribution := att;
                         device_id := raw_deviceid raw;
                         model := mdl;
                         measurements := ms |}
              end
          end
      end
  end.

End Model.

End models.

(** ** [helpers.py] *)

Module helpers.
Import models.

Section Aggregator.
Context `{Core}.

(** Modelled from the spec: [helpers.py] is not among the available
    sources; [aggregate_measurements] follows the four steps of section
    4.4. Step 1: every measurement with the timestamp of its group, in
    input order. *)
Definition flatten (groups : list MeasurementGroup)
  : list (MeasurementType * float * Z) :=
  g ← groups;
  (fun m => (type m, value m, measured_at g)) <$> measurements g.

(** Modelled from the spec: section 4.4, step 2, the optional filter on
    the type. *)
Definition selected (measurement_types : option (gset MeasurementType))
    (t : MeasurementType) : bool :=
  match measurement_types with
  | None => true
  | Some types => bool_decide (t ∈ types)
  end.

(** Modelled from the spec: section 4.4, step 3. The entry seen
    replaces the winner of its type unless the winner is strictly later,
    so that the last seen wins among equal timestamps. *)
Definition keep_latest (best : gmap MeasurementType (float * Z))
    (e : MeasurementType * float * Z) : gmap MeasurementType (float * Z) :=
  match best !! e.1.1 with
  | Some (_, at_) =>
      if at_ <=? e.2 then <[e.1.1 := (e.1.2, e.2)]> best else best
  | None => <[e.1.1 := (e.1.2, e.2)]> best
  end.

(** Modelled from the spec: section 4.4, step 3, over all entries in
    input order. *)
Definition winners (entries : list (MeasurementType * float * Z))
  : gmap MeasurementType (float * Z) :=
  fold_left keep_latest entries ∅.

(** Modelled from the spec: section 4.4, step 4, the mapping from type
    to value built from the winners. *)
Definition aggregate_measurements (groups : list MeasurementGroup)
    (measurement_types : option (gset MeasurementType))
  : gmap MeasurementType float :=
  fst <$> winners (List.filter (fun e => selected measurement_types e.1.1)
                     (flatten groups)).

(** The latest measurement of a type, the last one among equals: [v] is
    the value of a measurement [m] of type [t] in a group [g] such that
    no measurement of type [t] is measured later than [g], and every one
    that comes after [m] in the order of the input (further in [g], or in
    a later group) is measured strictly earlier. *)
Definition latest_last (groups : list MeasurementGroup)
    (t : MeasurementType) (v : float) : Prop :=
  exists gs1 g gs2 ms1 m ms2,
    groups = (gs1 ++ g :: gs2)%list /\
    measurements g = (ms1 ++ m :: ms2)%list /\
    type m = t /\ value m = v /\
    (forall g' m', In g' gs1 -> In m' (measurements g') -> type m' = t ->
                   measured_at g' <= measured_at g) /\
    (forall m', In m' ms2 -> type m' <> t) /\
    (forall g' m', In g' gs2 -> In m' (measurements g') -> type m' = t ->
                   measured_at g' < measured_at g).

End Aggregator.

End helpers.

(** ** Sample data *)

Module samples.
Import withings models helpers.

(** A platform whose floats are written as decimal literals. *)
#[export] Instance platform : Platform := {|
  float := string;
  datetime := Z;
  timestamp := fun t => pretty t ++ ".0";
  metadata_version := Some "0.1.0"
|}.

#[export] Instance client_models : Models := {|
  Device := Any;
  Goals := Any;
  withings.MeasurementGroup := Any;
  withings.MeasurementType := Z;
  Device_from_api := Ok;
  Goals_from_api := Ok;
  withings.MeasurementGroup_from_api := Ok;
  MeasurementType_str := pretty
|}.

#[export] Instance core : Core := {|
  MeasurementType_decl := [("WEIGHT", 1); ("HEIGHT", 4)];
  MeasurementGroupCategory_decl := [("REAL", 1); ("USER_OBJECTIVES", 2)];
  MeasurementGroupAttribution_decl := [("DEVICE", 0); ("MANUAL", 2)];
  DeviceModel_decl := [];
  policy := FailFast;
  decode := fun mantissa exponent => pretty mantissa ++ "e" ++ pretty exponent
|}.

Definition weight : models.MeasurementType := Known ("WEIGHT", 1).

Definition height : models.MeasurementType := Known ("HEIGHT", 4).

Definition group (at_ : Z) (ms : list (models.MeasurementType * string))
  : models.MeasurementGroup :=
  {| measured_at := at_;
     category := Known ("REAL", 1);
     attribution := Known ("DEVICE", 0);
     device_id := None;
     model := None;
     measurements := (fun m => {| type := m.1; value := m.2 |}) <$> ms |}.

(** The two groups of section 8. *)
Definition group_A : models.MeasurementGroup := group 100 [(weight, "70.0")].

Definition group_B : models.MeasurementGroup :=
  group 200 [(weight, "72.0"); (height, "1.8")].

Definition raw_group : RawMeasurementGroup :=
  {| raw_category := 1;
     raw_attribution := 0;
     raw_date := 1700000000;
     raw_measures :=
       [ {| raw_type := 4; raw_value := 18; raw_unit := -1 |};
         {| raw_type := 1; raw_value := 70000; raw_unit := -3 |} ];
     raw_deviceid := None;
     raw_model := None |}.

(** A client built on session 7 of its caller, and one built without a
    session. *)
Definition supplied : WithingsClient :=
  init (Some 7%nat) None None None None.

Definition bare : WithingsClient := init None None None None None.

(** An envelope of the API that reports status 401, served as JSON. *)
Definition unauthorized : ClientResponse :=
  {| headers := [("Content-Type", "application/json")];
     text := "{status: 401, error: unauthorized}";
     json := inr (PDict [("status", PInt 401);
                         ("error", PStr "unauthorized")]) |}.

Definition html_page : ClientResponse :=
  {| headers := [("content-type", "text/html")];
     text := "<html></html>";
     json := inl "ContentTypeError" |}.

(** A device list and a list of measurement groups, as the API wraps
    them. *)
Definition two_devices : ClientResponse :=
  {| headers := [("Content-Type", "application/json; charset=utf-8")];
     text := "";
     json := inr (PDict [("status", PInt 0);
                         ("body", PDict [("devices",
                                          PList [PStr "scale";
                                                 PStr "watch"])])]) |}.

Definition two_groups : ClientResponse :=
  {| headers := [("Content-Type", "application/json")];
     text := "";
     json := inr (PDict [("status", PInt 0);
                         ("body", PDict [("measuregrps",
                                          PList [PInt 1; PInt 2])])]) |}.

(** A response without a [Content-Type] header. *)
Definition headerless : ClientResponse :=
  {| headers := [("Server", "nginx")];
     text := "Bad Gateway";
     json := inl "ContentTypeError" |}.

(** The platform without the metadata of the package, and the models on
    it. *)
Definition uninstalled : Platform := {|
  float := string;
  datetime := Z;
  timestamp := fun t => pretty t ++ ".0";
  metadata_version := None
|}.

Definition uninstalled_models : @Models uninstalled := {|
  Device := @Any uninstalled;
  Goals := @Any uninstalled;
  withings.MeasurementGroup := @Any uninstalled;
  withings.MeasurementType := Z;
  Device_from_api := Ok;
  Goals_from_api := Ok;
  withings.MeasurementGroup_from_api := Ok;
  MeasurementType_str := pretty
|}.

(** A client that has made one request and owns the session it opened
    for it. *)
Definition used : State :=
  snd (_request "v2/user" None TimedOut (start bare 0%nat)).

(** An envelope that carries goals and no devices. *)
Definition goals_only : ClientResponse :=
  {| headers := [("Content-Type", "application/json")];
     text := "";
     json := inr (PDict [("status", PInt 0);
                         ("body", PDict [("goals", PDict [])])]) |}.

(** A client whose caller set the private flag at construction. *)
Definition flagged : WithingsClient :=
  init (Some 7%nat) None None None (Some true).

(** A client built with a timeout of 3 and a host in capitals. *)
Definition hurried : WithingsClient :=
  init None (Some 3) (Some "API.Example.COM") None None.

(** The envelope of an API error. *)
Definition error_envelope : ClientResponse :=
  {| headers := [("Content-Type", "application/json")];
     text := "";
     json := inr (PDict [("status", PInt 401); ("body", PDict []);
                         ("error", PStr "unauthorized")]) |}.

End samples.

(** * Theorems *)

Local Open Scope list_scope.

(** ** The transport client *)

Section ClientFacts.
Import withings.
Context `{Platform} `{!Models}.

Lemma _request_run v uri data reply st :
  metadata_version = Some v ->
  _request uri data reply st = (answer reply, after_request v uri data st).
Proof.
  intros Hv. unfold _request, version, bind, after_request, answer.
  rewrite Hv. destruct st as [[[s|] rt h tok cs] t n]; cbn.
  - destruct reply as [r| |nm]; cbn; try reflexivity.
    destruct (contains _ _); reflexivity.
  - destruct reply as [r| |nm]; cbn; try reflexivity.
    destruct (contains _ _); reflexivity.
Qed.

Lemma _request_not_installed uri data reply st :
  metadata_version = None ->
  _request uri data reply st = (Raise (Foreign "PackageNotFoundError"), st).
Proof. intros Hv. unfold _request, version, bind. rewrite Hv. reflexivity. Qed.

(** A continuation that leaves the state alone leaves it where the first
    coroutine left it. *)
Lemma snd_bind_pure {A B} (m : M A) (k : A -> M B) st :
  (forall a st', snd (k a st') = st') ->
  snd (bind m k st) = snd (m st).
Proof.
  intros Hk. unfold bind. destruct (m st) as [[a|e] st']; cbn; auto.
Qed.

Lemma snd_lift_bind {A B} (r : Result A) (k : A -> M B) st :
  (forall a st', snd (k a st') = st') ->
  snd (bind (lift r) k st) = st.
Proof. intros Hk. unfold bind, lift. destruct r; cbn; auto. Qed.

Ltac pure_tail :=
  repeat first
    [ reflexivity
    | intros ? ?; unfold lift; reflexivity
    | intros ? ?; apply snd_lift_bind ].

Lemma get_devices_state reply st :
  snd (get_devices reply st)
  = snd (_request "v2/user" (Some [("action", PStr "getdevice")]) reply st).
Proof. unfold get_devices. apply snd_bind_pure. pure_tail. Qed.

Lemma get_goals_state reply st :
  snd (get_goals reply st)
  = snd (_request "v2/user" (Some [("action", PStr "getgoals")]) reply st).
Proof. unfold get_goals. apply snd_bind_pure. pure_tail. Qed.

Lemma _get_measurements_state types base reply st :
  exists data,
    snd (_get_measurements types base reply st)
    = snd (_request "measure" (Some data) reply st).
Proof.
  unfold _get_measurements. eexists. apply snd_bind_pure. pure_tail.
Qed.

(** Every call that reaches the network does so through one [_request]. *)
Lemma exec_network call reply st :
  reply_of call = Some reply ->
  exists uri data, exec call st = snd (_request uri data reply st).
Proof.
  destruct call; cbn; intros Hr; try discriminate; injection Hr as ->.
  - eauto.
  - rewrite get_devices_state; eauto.
  - rewrite get_goals_state; eauto.
  - unfold get_measurement_since.
    destruct (_get_measurements_state measurement_types
                [("lastupdate", PFloat (timestamp measurement_since))]
                reply st) as [d Hd]; eauto.
  - unfold get_measurement_in_period.
    destruct (_get_measurements_state measurement_types
                [("startdate", PFloat (timestamp start_date));
                 ("enddate", PFloat (timestamp end_date))]
                reply st) as [d Hd]; eauto.
Qed.

Lemma deadlines_after_request v uri data st :
  deadlines (trace (after_request v uri data st))
  = deadlines (trace st) ++ [request_timeout (self st)].
Proof.
  unfold after_request, deadlines.
  destruct (session (self st)); cbn; rewrite !omap_app; cbn;
    rewrite ?app_nil_r; reflexivity.
Qed.

Lemma created_after_request v uri data st :
  created (trace (after_request v uri data st))
  = created (trace st)
    ++ match session (self st) with
       | None => [next_session st]
       | Some _ => []
       end.
Proof.
  unfold after_request, created.
  destruct (session (self st)); cbn; rewrite !omap_app; cbn;
    rewrite ?app_nil_r; reflexivity.
Qed.

Lemma closed_after_request v uri data st :
  closed (trace (after_request v uri data st)) = closed (trace st).
Proof.
  unfold after_request, closed.
  destruct (session (self st)); cbn; rewrite !omap_app; cbn;
    rewrite ?app_nil_r; reflexivity.
Qed.

Lemma close_run st :
  close st
  = (Ok tt,
     {| self := self st;
        trace := trace st
                 ++ match session (self st) with
                    | Some s =>
                        if _close_session (self st) then [SessionClosed s]
                        else []
                    | None => []
                    end;
        next_session := next_session st |}).
Proof.
  unfold close, bind, get_self, emit, ret.
  destruct st as [[[s|] rt h tok [|]] t n]; cbn; rewrite ?app_nil_r;
    reflexivity.
Qed.

(** The state after any call, by the kind of call. *)
Lemma exec_state call st :
  exec call st
  = match reply_of call, metadata_version with
    | Some _, Some v =>
        exec call st
    | Some _, None => st
    | None, _ =>
        match call with
        | call_authenticate token => snd (authenticate token st)
        | call_close | call___aexit__ => snd (close st)
        | _ => st
        end
    end.
Proof.
  destruct (reply_of call) as [reply|] eqn:Hr.
  - destruct metadata_version as [v|] eqn:Hv; [reflexivity|].
    destruct (exec_network call reply st Hr) as (uri & data & ->).
    rewrite _request_not_installed by assumption. reflexivity.
  - destruct call; cbn in *; try discriminate; reflexivity.
Qed.

Lemma exec_sent call reply v st :
  reply_of call = Some reply -> metadata_version = Some v ->
  exists uri data, exec call st = after_request v uri data st.
Proof.
  intros Hr Hv. destruct (exec_network call reply st Hr) as (uri & data & ->).
  exists uri, data. rewrite (_request_run v) by assumption. reflexivity.
Qed.

(** The deadlines one call adds to the trace. *)
Lemma exec_deadlines call st :
  deadlines (trace (exec call st))
  = deadlines (trace st)
    ++ match reply_of call, metadata_version with
       | Some _, Some _ => [request_timeout (self st)]
       | _, _ => []
       end.
Proof.
  destruct (reply_of call) as [reply|] eqn:Hr.
  - destruct metadata_version as [v|] eqn:Hv.
    + destruct (exec_sent call reply v st Hr Hv) as (uri & data & ->).
      apply deadlines_after_request.
    + rewrite exec_state, Hr, Hv, app_nil_r. reflexivity.
  - rewrite exec_state, Hr, app_nil_r.
    destruct call; try reflexivity;
      rewrite close_run; cbn [snd trace]; unfold deadlines;
      rewrite omap_app;
      destruct (session (self st)) as [s|];
      try destruct (_close_session (self st)); cbn;
      rewrite app_nil_r; reflexivity.
Qed.

Lemma run_snoc calls call st :
  run (calls ++ [call]) st = exec call (run calls st).
Proof. unfold run. rewrite fold_left_app. reflexivity. Qed.

Lemma session_invariant_start c next :
  _close_session c = false -> session_invariant c (start c next).
Proof. intros Hc. left. cbn. auto. Qed.

Lemma session_invariant_after_request c v uri data st :
  session_invariant c st ->
  session_invariant c (after_request v uri data st).
Proof.
  intros Hinv. unfold session_invariant.
  rewrite created_after_request, closed_after_request.
  destruct Hinv as [(Hcr & Hcl & Hs & Hf) | (s & Hc & Hs & Ht & Hcr & Hcl)].
  - rewrite Hcr, Hcl. unfold after_request.
    destruct (session (self st)) as [s|] eqn:Hses; cbn.
    + left. rewrite Hses. auto.
    + right. exists (next_session st). repeat split; auto.
      intros s' [].
  - right. exists s. rewrite Hcr. unfold after_request. rewrite Hs. cbn.
    auto.
Qed.

Lemma session_invariant_close c st :
  session_invariant c st -> session_invariant c (snd (close st)).
Proof.
  intros Hinv. rewrite close_run. unfold session_invariant, created, closed.
  cbn [snd trace self]. rewrite !omap_app.
  destruct Hinv as [(Hcr & Hcl & Hs & Hf) | (s & Hc & Hs & Ht & Hcr & Hcl)].
  - left. rewrite Hf. fold (created (trace st)) (closed (trace st)).
    rewrite Hcr, Hcl. destruct (session (self st)); cbn; auto.
  - right. exists s. rewrite Hs, Ht. cbn.
    fold (created (trace st)) (closed (trace st)). rewrite Hcr.
    repeat split; auto.
    intros s' Hin. apply in_app_or in Hin as [Hin | [<- | []]]; auto.
Qed.

Lemma session_invariant_exec c call st :
  session_invariant c st -> session_invariant c (exec call st).
Proof.
  intros Hinv. destruct (reply_of call) as [reply|] eqn:Hr.
  - destruct metadata_version as [v|] eqn:Hv.
    + destruct (exec_sent call reply v st Hr Hv) as (uri & data & ->).
      apply session_invariant_after_request; assumption.
    + rewrite exec_state, Hr, Hv. assumption.
  - rewrite exec_state, Hr.
    destruct call; try assumption; apply session_invariant_close; assumption.
Qed.

Lemma session_invariant_run c next calls :
  _close_session c = false ->
  session_invariant c (run calls (start c next)).
Proof.
  intros Hc. induction calls as [|call calls IH] using rev_ind.
  - apply session_invariant_start; assumption.
  - rewrite run_snoc. apply session_invariant_exec; assumption.
Qed.

(** C8, as the code has it. A client built with [_close_session] at its default opens a
    session only when it was built without one; whatever the calls made
    on it, it never closes a session it was built with, it closes only
    sessions it opened, and [close] and [__aexit__] close exactly the
    sessions it opened: the one it created when it created one, none
    otherwise. *)
Theorem session_ownership c next calls :
  _close_session c = false ->
  let st := run calls (start c next) in
  (forall s, In s (created (trace st)) -> session c = None) /\
  (forall s, session c = Some s -> closed (trace st) = []) /\
  (forall s, In s (closed (trace st)) -> In s (created (trace st))) /\
  closed (trace (snd (close st)))
  = closed (trace st) ++ created (trace st) /\
  closed (trace (snd (__aexit__ st)))
  = closed (trace st) ++ created (trace st).
Proof.
  intros Hc. cbv zeta.
  generalize (session_invariant_run c next calls Hc).
  generalize (run calls (start c next)). intros st Hinv.
  assert (Hclose : closed (trace (snd (close st)))
                   = closed (trace st) ++ created (trace st)).
  { rewrite close_run. cbn [snd trace]. unfold closed at 1.
    rewrite omap_app. fold (closed (trace st)). f_equal.
    destruct Hinv as [(Hcr & Hcl & Hs & Hf) | (s & Hn & Hs & Ht & Hcr & Hcl)].
    - rewrite Hcr, Hf. destruct (session (self st)); reflexivity.
    - rewrite Hs, Ht, Hcr. reflexivity. }
  destruct Hinv as [(Hcr & Hcl & Hs & Hf) | (s & Hn & Hs & Ht & Hcr & Hcl)].
  - split; [|split; [|split; [|split]]]; try assumption.
    + intros s Hin. rewrite Hcr in Hin. destruct Hin.
    + intros s _. exact Hcl.
    + intros s Hin. rewrite Hcl in Hin. destruct Hin.
  - split; [|split; [|split; [|split]]]; try assumption.
    + intros s0 _. exact Hn.
    + intros s0 Hs0. congruence.
    + intros s' Hin. rewrite Hcr. left. symmetry. auto.
Qed.

(** C9, as the code has it. A request whose deadline elapses makes
    [_request] raise [WithingsConnectionError]; a response whose
    [Content-Type] header does not contain [application/json] makes it
    raise [WithingsError] with the content type and the response text; a
    response whose header contains it is answered by what
    [response.json()] returns, whatever status the body reports; and the
    only classes of the package that [_request] ever raises are
    [WithingsError] and [WithingsConnectionError]. *)
Theorem non_json_response_raises v uri data st :
  metadata_version = Some v ->
  fst (_request uri data TimedOut st)
  = Raise (Withings WithingsConnectionError
             "Timeout occurred while connecting to Withings" []) /\
  (forall r,
     let content_type := headers_get (headers r) "Content-Type" "" in
     contains "application/json" content_type = false ->
     fst (_request uri data (Responded r) st)
     = Raise (Withings WithingsError "Unexpected response from Withings"
                [("Content-Type", content_type); ("response", text r)])) /\
  (forall r body,
     contains "application/json" (headers_get (headers r) "Content-Type" "")
     = true ->
     json r = inr body ->
     fst (_request uri data (Responded r) st) = Ok body) /\
  (forall reply kind msg info,
     fst (_request uri data reply st) = Raise (Withings kind msg info) ->
     kind = WithingsError \/ kind = WithingsConnectionError).
Proof.
  intros Hv. repeat split.
  - rewrite (_request_run v) by assumption. reflexivity.
  - intros r ct Hct. rewrite (_request_run v) by assumption. cbn.
    fold ct. rewrite Hct. reflexivity.
  - intros r body Hct Hj. rewrite (_request_run v) by assumption. cbn.
    rewrite Hct, Hj. reflexivity.
  - intros reply kind msg info. rewrite (_request_run v) by assumption.
    cbn. destruct reply as [r| |nm]; cbn.
    + destruct (contains _ _).
      * destruct (json r); cbn; discriminate.
      * intros [= <- _ _]. left. reflexivity.
    + intros [= <- _ _]. right. reflexivity.
    + discriminate.
Qed.

(** C10. On a client whose token is still [None], [_request] sends its
    request all the same, with the header [Authorization: Bearer None];
    and [authenticate] stores the token and leaves every other field of
    the client, and the outside world, as they were. *)
Theorem request_without_token v uri data reply st :
  metadata_version = Some v ->
  _token (self st) = None ->
  (exists s url,
     last (trace (snd (_request uri data reply st)))
     = Some (RequestSent s (request_timeout (self st)) METH_POST url
               [ ("User-Agent", "AioWithings/" ++ v)%string;
                 ("Accept", "application/json, text/plain, */*");
                 ("Authorization", "Bearer None") ] data)) /\
  (forall token,
     authenticate token st
     = (Ok tt,
        {| self := {| session := session (self st);
                      request_timeout := request_timeout (self st);
                      api_host := api_host (self st);
                      _token := Some token;
                      _close_session := _close_session (self st) |};
           trace := trace st;
           next_session := next_session st |})).
Proof.
  intros Hv Htok. split; [|reflexivity].
  rewrite (_request_run v) by assumption. cbn [snd].
  unfold after_request, request_event, request_headers. rewrite Htok.
  destruct (session (self st)) as [s|]; cbn [trace];
    rewrite last_snoc; eauto.
Qed.

End ClientFacts.

(** ** The transport client: requests, sessions and results *)

Lemma dict_get_set_eq {V} (d : list (string * V)) k v :
  dict_get (dict_set d k v) k = Some v.
Proof.
  induction d as [|[k' v'] d IH]; cbn.
  - rewrite String.eqb_refl. reflexivity.
  - destruct (String.eqb k' k) eqn:Hk; cbn; rewrite Hk; auto.
Qed.

Lemma dict_get_set_ne {V} (d : list (string * V)) k k' v :
  k <> k' -> dict_get (dict_set d k v) k' = dict_get d k'.
Proof.
  intros Hne. induction d as [|[k0 v0] d IH]; cbn.
  - apply String.eqb_neq in Hne. rewrite Hne. reflexivity.
  - destruct (String.eqb k0 k) eqn:Hk; cbn.
    + apply String.eqb_eq in Hk as ->.
      apply String.eqb_neq in Hne. rewrite Hne. reflexivity.
    + destruct (String.eqb k0 k'); auto.
Qed.

Lemma prefix_app sub post : String.prefix sub (sub ++ post)%string = true.
Proof.
  induction sub as [|a sub IH].
  - change (String.prefix "" post = true). destruct post; reflexivity.
  - change (String.prefix (String a sub) (String a (sub ++ post)%string)
            = true).
    cbn [String.prefix]. destruct (ascii_dec a a); [assumption|contradiction].
Qed.

Lemma contains_unfold sub s :
  contains sub s
  = String.prefix sub s ||
    match s with
    | EmptyString => false
    | String _ s' => contains sub s'
    end.
Proof. destruct s; reflexivity. Qed.

(** [sub in s] holds of every string that has [sub] somewhere in it. *)
Lemma contains_app sub pre post :
  contains sub (pre ++ sub ++ post)%string = true.
Proof.
  induction pre as [|a pre IH].
  - change (contains sub (sub ++ post)%string = true).
    rewrite contains_unfold, prefix_app. reflexivity.
  - change (contains sub (String a (pre ++ sub ++ post)%string) = true).
    rewrite contains_unfold, IH. apply orb_true_r.
Qed.

Lemma headers_get_missing hs key default :
  (forall k v, In (k, v) hs -> lower k <> lower key) ->
  headers_get hs key default = default.
Proof.
  induction hs as [|[k v] hs IH]; cbn; intros Hno; [reflexivity|].
  destruct (String.eqb (lower k) (lower key)) eqn:Hk.
  - apply String.eqb_eq in Hk. destruct (Hno k v); auto.
  - apply IH. intros k' v' Hin. apply (Hno k' v'). auto.
Qed.

Section ClientMore.
Import withings.
Context `{Platform} `{!Models}.

Ltac pure_tail :=
  repeat first
    [ reflexivity
    | intros ? ?; unfold lift; reflexivity
    | intros ? ?; apply snd_lift_bind ].

(** X1. The request of [_get_measurements] goes to [measure] with the
    caller's fields, [action] set to [getmeas] whatever the caller put
    there, and [meastypes] set to the comma-joined types when a list of
    types is given, left as the caller had it otherwise. *)
Theorem _get_measurements_request v measurement_types base_data reply st :
  metadata_version = Some v ->
  exists data,
    snd (_get_measurements measurement_types base_data reply st)
    = after_request v "measure" (Some data) st /\
    dict_get data "action" = Some (PStr "getmeas") /\
    dict_get data "meastypes"
    = match measurement_types with
      | Some types => Some (PStr (join "," (map MeasurementType_str types)))
      | None => dict_get base_data "meastypes"
      end /\
    forall k, k <> "action"%string -> k <> "meastypes"%string ->
              dict_get data k = dict_get base_data k.
Proof.
  intros Hv. unfold _get_measurements.
  set (data := match measurement_types with
               | Some types => dict_set _ "meastypes" _
               | None => _
               end).
  exists data. split; [|split; [|split]].
  - rewrite snd_bind_pure by pure_tail.
    rewrite (_request_run v) by assumption. reflexivity.
  - subst data. destruct measurement_types as [types|].
    + rewrite dict_get_set_ne by discriminate. apply dict_get_set_eq.
    + apply dict_get_set_eq.
  - subst data. destruct measurement_types as [types|].
    + apply dict_get_set_eq.
    + apply dict_get_set_ne. discriminate.
  - intros k Ha Hm. subst data. destruct measurement_types as [types|].
    + rewrite dict_get_set_ne by congruence. apply dict_get_set_ne. congruence.
    + apply dict_get_set_ne. congruence.
Qed.

(** The requests of the two measurement calls. *)
Lemma measurement_requests_state v since start_date end_date
    measurement_types reply st :
  metadata_version = Some v ->
  snd (get_measurement_since since measurement_types reply st)
  = after_request v "measure"
      (Some ([ ("lastupdate", PFloat (timestamp since));
               ("action", PStr "getmeas") ]
             ++ match measurement_types with
                | Some types =>
                    [("meastypes",
                      PStr (join "," (map MeasurementType_str types)))]
                | None => []
                end)) st /\
  snd (get_measurement_in_period start_date end_date measurement_types
         reply st)
  = after_request v "measure"
      (Some ([ ("startdate", PFloat (timestamp start_date));
               ("enddate", PFloat (timestamp end_date));
               ("action", PStr "getmeas") ]
             ++ match measurement_types with
                | Some types =>
                    [("meastypes",
                      PStr (join "," (map MeasurementType_str types)))]
                | None => []
                end)) st.
Proof.
  intros Hv.
  unfold get_measurement_since, get_measurement_in_period, _get_measurements.
  rewrite !snd_bind_pure by pure_tail.
  rewrite !(_request_run v) by assumption.
  destruct measurement_types as [types|]; cbn; split; reflexivity.
Qed.

(** X2. The fields of the two measurement requests, as the outside
    world sees them: [get_measurement_since] sends [lastupdate] and
    [action], [get_measurement_in_period] sends [startdate], [enddate]
    and [action], in this order, and [meastypes] follows exactly when a
    list of types is passed, also when the list is empty (an empty
    string then). *)
Theorem measurement_requests v since start_date end_date
    measurement_types reply st :
  metadata_version = Some v ->
  let meastypes :=
    match measurement_types with
    | Some types =>
        [("meastypes", PStr (join "," (map MeasurementType_str types)))]
    | None => []
    end in
  let sent (st' : State) := last (trace st') in
  (exists s deadline method url hdrs,
     sent (snd (get_measurement_since since measurement_types reply st))
     = Some (RequestSent s deadline method url hdrs
               (Some ([ ("lastupdate", PFloat (timestamp since));
                        ("action", PStr "getmeas") ] ++ meastypes)))) /\
  (exists s deadline method url hdrs,
     sent (snd (get_measurement_in_period start_date end_date
                  measurement_types reply st))
     = Some (RequestSent s deadline method url hdrs
               (Some ([ ("startdate", PFloat (timestamp start_date));
                        ("enddate", PFloat (timestamp end_date));
                        ("action", PStr "getmeas") ] ++ meastypes)))).
Proof.
  intros Hv meastypes sent. subst sent meastypes. cbv beta.
  destruct (measurement_requests_state v since start_date end_date
              measurement_types reply st Hv) as [-> ->].
  unfold after_request, request_event.
  split; destruct (session (self st)); cbn [trace]; rewrite last_snoc;
    eauto 10.
Qed.

(** X3. Without the metadata of the installed package, [_request]
    raises [PackageNotFoundError] before anything else: every call that
    needs the network leaves the client and the outside world
    untouched, opens no session and sends no request. *)
Theorem request_needs_package_metadata :
  metadata_version = None ->
  (forall uri data reply st,
     _request uri data reply st
     = (Raise (Foreign "PackageNotFoundError"), st)) /\
  (forall call reply st, reply_of call = Some reply -> exec call st = st).
Proof.
  intros Hv. split.
  - intros. apply _request_not_installed. assumption.
  - intros call reply st Hr. rewrite exec_state, Hr, Hv. reflexivity.
Qed.

Lemma sent_on_after_request v uri data st :
  sent_on (trace (after_request v uri data st))
  = sent_on (trace st)
    ++ [match session (self st) with
        | Some s => s
        | None => next_session st
        end].
Proof.
  unfold after_request, sent_on.
  destruct (session (self st)); cbn; rewrite !omap_app; cbn;
    rewrite ?app_nil_r; reflexivity.
Qed.

(** What a call that stays local leaves as it was. *)
Lemma exec_local_effect call st :
  reply_of call = None ->
  session (self (exec call st)) = session (self st) /\
  next_session (exec call st) = next_session st /\
  created (trace (exec call st)) = created (trace st) /\
  sent_on (trace (exec call st)) = sent_on (trace st).
Proof.
  intros Hr. rewrite exec_state, Hr.
  destruct call; cbn in Hr; try discriminate; try (repeat split; reflexivity);
    rewrite close_run; cbn [snd self trace next_session];
    unfold created, sent_on; rewrite !omap_app;
    destruct (session (self st)); try destruct (_close_session (self st));
    cbn; rewrite ?app_nil_r; repeat split; reflexivity.
Qed.

(** X4. However a client is used, it opens at most one session, and
    all its requests go out on one session: the one it was built with,
    when it was built with one (and then it opens none), the one it
    opened otherwise. *)
Theorem one_session c next calls :
  let st := run calls (start c next) in
  (length (created (trace st)) <= 1)%nat /\
  match session c with
  | Some s =>
      created (trace st) = [] /\ Forall (eq s) (sent_on (trace st))
  | None =>
      incl (created (trace st)) [next] /\
      Forall (eq next) (sent_on (trace st))
  end.
Proof.
  cbv zeta.
  enough (Hinv :
    match session c with
    | Some s =>
        session (self (run calls (start c next))) = Some s /\
        created (trace (run calls (start c next))) = [] /\
        Forall (eq s) (sent_on (trace (run calls (start c next))))
    | None =>
        (session (self (run calls (start c next))) = None /\
         next_session (run calls (start c next)) = next /\
         created (trace (run calls (start c next))) = [] /\
         sent_on (trace (run calls (start c next))) = []) \/
        (session (self (run calls (start c next))) = Some next /\
         created (trace (run calls (start c next))) = [next] /\
         Forall (eq next) (sent_on (trace (run calls (start c next)))))
    end).
  { destruct (session c) as [s|].
    - destruct Hinv as (_ & -> & Hs). cbn. auto.
    - destruct Hinv as [(_ & _ & -> & ->) | (_ & -> & Hs)]; cbn.
      + split; [lia|]. split; [intros ? []|constructor].
      + split; [lia|]. split; [apply incl_refl|assumption]. }
  induction calls as [|call calls IH] using rev_ind.
  - cbn. destruct (session c) as [s|] eqn:Hc; cbn; auto 6.
  - rewrite run_snoc. set (st := run calls (start c next)) in *.
    destruct (reply_of call) as [reply|] eqn:Hr.
    + destruct metadata_version as [v|] eqn:Hv.
      * destruct (exec_sent call reply v st Hr Hv) as (uri & data & ->).
        rewrite created_after_request, sent_on_after_request.
        destruct (session c) as [s|].
        -- destruct IH as (Hs & Hcr & Hall). unfold after_request at 1.
           rewrite Hs, Hcr. cbn. rewrite ?Hs.
           split; [reflexivity|]. split; [reflexivity|].
           apply Forall_app. split; [assumption|]. repeat constructor.
        -- destruct IH as [(Hs & Hn & Hcr & Hse) | (Hs & Hcr & Hall)].
           ++ right. unfold after_request at 1. rewrite Hs, Hn, Hcr, Hse. cbn.
              repeat split. repeat constructor.
           ++ right. unfold after_request at 1. rewrite Hs, Hcr. cbn.
              rewrite ?Hs.
              split; [reflexivity|]. split; [reflexivity|].
              apply Forall_app. split; [assumption|]. repeat constructor.
      * rewrite exec_state, Hr, Hv. exact IH.
    + destruct (exec_local_effect call st Hr) as (-> & -> & -> & ->).
      exact IH.
Qed.

(** X5. [close] leaves the client holding its session: a call made
    after it sends its request on that same session and opens no new
    one. *)
Theorem request_after_close v call reply s st :
  metadata_version = Some v ->
  session (self st) = Some s ->
  reply_of call = Some reply ->
  sent_on (trace (exec call (snd (close st)))) = sent_on (trace st) ++ [s] /\
  created (trace (exec call (snd (close st)))) = created (trace st).
Proof.
  intros Hv Hs Hr.
  destruct (exec_sent call reply v (snd (close st)) Hr Hv)
    as (uri & data & ->).
  rewrite sent_on_after_request, created_after_request, close_run.
  cbn [snd self trace next_session]. rewrite Hs.
  unfold sent_on, created. rewrite !omap_app.
  destruct (_close_session (self st)); cbn; rewrite !app_nil_r; auto.
Qed.

(** X6. Only [close] and [__aexit__] close a session: no other call
    does, whether its request is answered, times out, fails, or is
    answered with something that is not JSON. *)
Theorem only_close_closes call st :
  closes call = false ->
  closed (trace (exec call st)) = closed (trace st).
Proof.
  intros Hc. destruct (reply_of call) as [reply|] eqn:Hr.
  - destruct metadata_version as [v|] eqn:Hv.
    + destruct (exec_sent call reply v st Hr Hv) as (uri & data & ->).
      apply closed_after_request.
    + rewrite exec_state, Hr, Hv. reflexivity.
  - rewrite exec_state, Hr.
    destruct call; cbn in Hc, Hr; try discriminate; reflexivity.
Qed.

Lemma comprehension_Ok {A B} (f : A -> Result B) l ys :
  Forall2 (fun x y => f x = Ok y) l ys -> comprehension f l = Ok ys.
Proof.
  induction 1 as [|x y l ys Hx _ IH]; cbn; [reflexivity|].
  rewrite Hx, IH. reflexivity.
Qed.

Lemma comprehension_Raise {A B} (f : A -> Result B) l1 x l2 e :
  Forall (fun y => exists d, f y = Ok d) l1 ->
  f x = Raise e ->
  comprehension f (l1 ++ x :: l2) = Raise e.
Proof.
  intros Hl1 Hx. induction Hl1 as [|y l1 [d Hy] _ IH]; cbn.
  - rewrite Hx. reflexivity.
  - rewrite Hy, IH. reflexivity.
Qed.

(** What a JSON response is answered with. *)
Lemma answer_json r body :
  contains "application/json" (headers_get (headers r) "Content-Type" "")
  = true ->
  json r = inr body ->
  answer (Responded r) = Ok body.
Proof. intros Hct Hj. cbn. rewrite Hct, Hj. reflexivity. Qed.

Ltac run_request v :=
  unfold get_measurement_since, get_measurement_in_period, _get_measurements,
    get_devices, get_goals, bind;
  rewrite ?(_request_run v) by assumption.

(** X7. An envelope without [body], or whose [body] is an object
    without the key a call reads (the envelope of an API error), makes
    that call raise [KeyError], not an error of the package:
    [get_devices] reads [devices], [get_goals] reads [goals] and
    [_get_measurements] reads [measuregrps]. *)
Theorem envelope_without_payload v r items st :
  metadata_version = Some v ->
  contains "application/json" (headers_get (headers r) "Content-Type" "")
  = true ->
  json r = inr (PDict items) ->
  let lacks (key : string) :=
    dict_get items "body" = None \/
    (exists body, dict_get items "body" = Some (PDict body) /\
                  dict_get body key = None) in
  (lacks "devices"%string ->
   fst (get_devices (Responded r) st) = Raise (Foreign "KeyError")) /\
  (lacks "goals"%string ->
   fst (get_goals (Responded r) st) = Raise (Foreign "KeyError")) /\
  (lacks "measuregrps"%string ->
   forall measurement_types base_data,
     fst (_get_measurements measurement_types base_data (Responded r) st)
     = Raise (Foreign "KeyError")).
Proof.
  intros Hv Hct Hj lacks. pose proof (answer_json r _ Hct Hj) as Ha.
  subst lacks. cbv beta.
  repeat split; intros Hbody; intros; run_request v; rewrite Ha; cbn;
    destruct Hbody as [Hb | (body & Hb & Hk)]; rewrite Hb; cbn;
    rewrite ?Hk; reflexivity.
Qed.

(** X8. Whatever [_request] raises for a reply (the connection error of
    a timeout, the error of a response that is not JSON, an exception of
    the HTTP library), the four calls of the API raise it unchanged. *)
Theorem calls_raise_what_request_raises v uri data reply e st :
  metadata_version = Some v ->
  fst (_request uri data reply st) = Raise e ->
  fst (get_devices reply st) = Raise e /\
  fst (get_goals reply st) = Raise e /\
  (forall since types,
     fst (get_measurement_since since types reply st) = Raise e) /\
  (forall start_date end_date types,
     fst (get_measurement_in_period start_date end_date types reply st)
     = Raise e).
Proof.
  intros Hv. rewrite (_request_run v) by assumption. cbn [fst]. intros Ha.
  repeat split; intros; run_request v; rewrite Ha; reflexivity.
Qed.

(** X9. [get_devices] returns one device per entry of [body.devices],
    in the order of the entries; when [Device.from_api] raises on an
    entry, and not on an earlier one, the call raises that exception and
    returns no device. *)
Theorem get_devices_in_order v r items body l st :
  metadata_version = Some v ->
  contains "application/json" (headers_get (headers r) "Content-Type" "")
  = true ->
  json r = inr (PDict items) ->
  dict_get items "body" = Some (PDict body) ->
  dict_get body "devices" = Some (PList l) ->
  (forall devices,
     Forall2 (fun x d => Device_from_api x = Ok d) l devices ->
     fst (get_devices (Responded r) st) = Ok devices) /\
  (forall l1 x l2 e,
     l = l1 ++ x :: l2 ->
     Forall (fun y => exists d, Device_from_api y = Ok d) l1 ->
     Device_from_api x = Raise e ->
     fst (get_devices (Responded r) st) = Raise e).
Proof.
  intros Hv Hct Hj Hb Hd. pose proof (answer_json r _ Hct Hj) as Ha.
  split.
  - intros devices Hall. run_request v. rewrite Ha. cbn. rewrite Hb. cbn.
    rewrite Hd. cbn. unfold lift. rewrite (comprehension_Ok _ _ _ Hall).
    reflexivity.
  - intros l1 x l2 e -> Hl1 Hx. run_request v. rewrite Ha. cbn. rewrite Hb.
    cbn. rewrite Hd. cbn. unfold lift.
    rewrite (comprehension_Raise _ _ _ _ _ Hl1 Hx). reflexivity.
Qed.

(** X10. [get_measurement_since] and [get_measurement_in_period] return
    one group per entry of [body.measuregrps], in the order of the
    entries. *)
Theorem measurement_groups_in_order v r items body l groups st :
  metadata_version = Some v ->
  contains "application/json" (headers_get (headers r) "Content-Type" "")
  = true ->
  json r = inr (PDict items) ->
  dict_get items "body" = Some (PDict body) ->
  dict_get body "measuregrps" = Some (PList l) ->
  Forall2 (fun x g => MeasurementGroup_from_api x = Ok g) l groups ->
  (forall since types,
     fst (get_measurement_since since types (Responded r) st) = Ok groups) /\
  (forall start_date end_date types,
     fst (get_measurement_in_period start_date end_date types
            (Responded r) st) = Ok groups).
Proof.
  intros Hv Hct Hj Hb Hm Hall. pose proof (answer_json r _ Hct Hj) as Ha.
  split; intros; run_request v; rewrite Ha; cbn; rewrite Hb; cbn;
    rewrite Hm; cbn; unfold lift; rewrite (comprehension_Ok _ _ _ Hall);
    reflexivity.
Qed.

(** The fields of the client after one call. *)
Lemma exec_fields call st :
  request_timeout (self (exec call st)) = request_timeout (self st) /\
  api_host (self (exec call st)) = api_host (self st) /\
  _token (self (exec call st))
  = match call with
    | call_authenticate token => Some token
    | _ => _token (self st)
    end.
Proof.
  destruct (reply_of call) as [reply|] eqn:Hr.
  - assert (Hcall : match call with
                    | call_authenticate token => Some token
                    | _ => _token (self st)
                    end = _token (self st))
      by (destruct call; cbn in Hr; try discriminate; reflexivity).
    rewrite Hcall. destruct metadata_version as [v|] eqn:Hv.
    + destruct (exec_sent call reply v st Hr Hv) as (uri & data & ->).
      unfold after_request. destruct (session (self st)); cbn; auto.
    + rewrite exec_state, Hr, Hv. auto.
  - rewrite exec_state, Hr.
    destruct call; cbn in Hr; try discriminate; rewrite ?close_run; cbn;
      auto.
Qed.

(** X11. No call changes [request_timeout] or [api_host], and only
    [authenticate] changes the token: after any sequence of calls the
    client has the timeout and the host it was built with and the token
    of the last [authenticate], or its first token when there was
    none. *)
Theorem fields_after_calls c next calls :
  let st := run calls (start c next) in
  request_timeout (self st) = request_timeout c /\
  api_host (self st) = api_host c /\
  _token (self st) = last_token calls (_token c).
Proof.
  cbv zeta. induction calls as [|call calls IH] using rev_ind.
  - cbn. auto.
  - rewrite run_snoc. unfold last_token. rewrite fold_left_app. cbn.
    fold (last_token calls (_token c)).
    destruct (exec_fields call (run calls (start c next))) as (-> & -> & ->).
    destruct IH as (-> & -> & ->). destruct call; auto.
Qed.

(** X12. A call that reaches the network from a client whose host is a
    [valid_host], with a uri that is a [plain_uri] (as [v2/user] and
    [measure] are), sends one [POST] to
    [https://<api_host in lower case>:443/<uri>], under the timeout of
    the client, with the three headers of [_request]: the user agent of
    the installed version, the accepted types, and the bearer token the
    client holds at that moment. *)
Theorem request_target v call reply st :
  metadata_version = Some v ->
  reply_of call = Some reply ->
  valid_host (api_host (self st)) = true ->
  (forall uri, uri_of call = Some uri -> plain_uri uri = true) ->
  exists s uri data,
    uri_of call = Some uri /\
    last (trace (exec call st))
    = Some (RequestSent s (request_timeout (self st)) "POST"
              {| scheme := "https"; host := lower (api_host (self st));
                 port := 443; path := ("/" ++ uri)%string |}
              [ ("User-Agent", ("AioWithings/" ++ v)%string);
                ("Accept", "application/json, text/plain, */*");
                ("Authorization",
                 ("Bearer " ++ format_optional (_token (self st)))%string) ]
              data).
Proof.
  intros Hv Hr _ _.
  assert (Hsent : forall uri data,
    last (trace (after_request v uri data st))
    = Some (RequestSent
              match session (self st) with
              | Some s => s
              | None => next_session st
              end
              (request_timeout (self st)) "POST"
              {| scheme := "https"; host := lower (api_host (self st));
                 port := 443; path := ("/" ++ uri)%string |}
              [ ("User-Agent", ("AioWithings/" ++ v)%string);
                ("Accept", "application/json, text/plain, */*");
                ("Authorization",
                 ("Bearer " ++ format_optional (_token (self st)))%string) ]
              data)).
  { intros uri data. unfold after_request.
    destruct (session (self st)); cbn [trace]; rewrite last_snoc;
      reflexivity. }
  destruct call; cbn in Hr; try discriminate; cbn [exec uri_of].
  - rewrite (_request_run v) by assumption. cbn [snd]. eauto.
  - rewrite get_devices_state, (_request_run v) by assumption. cbn [snd].
    eauto.
  - rewrite get_goals_state, (_request_run v) by assumption. cbn [snd].
    eauto.
  - destruct (measurement_requests_state v measurement_since
                measurement_since measurement_since measurement_types
                reply0 st Hv) as [-> _]. eauto.
  - destruct (measurement_requests_state v start_date start_date end_date
                measurement_types reply0 st Hv) as [_ ->]. eauto.
Qed.

Lemma run_request_timeout c next calls :
  request_timeout (self (run calls (start c next))) = request_timeout c.
Proof.
  induction calls as [|call calls IH] using rev_ind; [reflexivity|].
  rewrite run_snoc.
  destruct (exec_fields call (run calls (start c next))) as (-> & _).
  exact IH.
Qed.

(** C7. The timeout given at construction is the one the client keeps,
    10 when none is given. Every request a client ever sends, whatever
    the calls made on it, runs under [async_timeout.timeout] of that
    timeout, and one call sends one request at most. When the deadline
    of a request elapses, [_request] raises [WithingsConnectionError]
    and has sent that one request only: it does not retry. (A request
    goes out when the URL library accepts the host and the uri:
    [valid_host], [relative].) *)
Theorem request_timeout_bounds_requests :
  (forall s t h tok cs,
     request_timeout (init s (Some t) h tok cs) = t /\
     request_timeout (init s None h tok cs) = 10) /\
  (forall c next calls,
     Forall (eq (request_timeout c))
       (deadlines (trace (run calls (start c next))))) /\
  (forall call st,
     exists sent,
       deadlines (trace (exec call st)) = deadlines (trace st) ++ sent /\
       (length sent <= 1)%nat /\
       Forall (eq (request_timeout (self st))) sent) /\
  (forall v uri data st,
     metadata_version = Some v ->
     valid_host (api_host (self st)) = true ->
     relative uri = true ->
     fst (_request uri data TimedOut st)
     = Raise (Withings WithingsConnectionError
                "Timeout occurred while connecting to Withings" []) /\
     deadlines (trace (snd (_request uri data TimedOut st)))
     = deadlines (trace st) ++ [request_timeout (self st)]).
Proof.
  split; [|split; [|split]].
  - intros. split; reflexivity.
  - intros c next calls. induction calls as [|call calls IH] using rev_ind.
    + constructor.
    + rewrite run_snoc, exec_deadlines. apply Forall_app. split; [exact IH|].
      rewrite run_request_timeout.
      destruct (reply_of call), metadata_version; repeat constructor.
  - intros call st. rewrite exec_deadlines.
    destruct (reply_of call), metadata_version;
      eexists; (split; [reflexivity|]); cbn; split; try lia;
      repeat constructor.
  - intros v uri data st Hv _ _. rewrite (_request_run v) by assumption.
    split; [reflexivity|]. apply deadlines_after_request.
Qed.

(** X13. A response that has no [Content-Type] header is not taken for
    JSON: [_request] raises [WithingsError] with an empty content type
    and the text of the response. *)
Theorem response_without_content_type v uri data r st :
  metadata_version = Some v ->
  (forall k value, In (k, value) (headers r) ->
                   lower k <> "content-type"%string) ->
  fst (_request uri data (Responded r) st)
  = Raise (Withings WithingsError "Unexpected response from Withings"
             [("Content-Type", ""%string); ("response", text r)]).
Proof.
  intros Hv Hno. rewrite (_request_run v) by assumption. cbn.
  rewrite (headers_get_missing (headers r) "Content-Type" "") by exact Hno.
  reflexivity.
Qed.

(** X14. The content type is tested by substring: a response whose
    [Content-Type] has [application/json] anywhere in it, with
    parameters after it or another type around it, is read as JSON and
    its decoded body returned. *)
Theorem content_type_by_substring v uri data r before after body st :
  metadata_version = Some v ->
  headers_get (headers r) "Content-Type" ""
  = (before ++ "application/json" ++ after)%string ->
  json r = inr body ->
  fst (_request uri data (Responded r) st) = Ok body.
Proof.
  intros Hv Hct Hj. rewrite (_request_run v) by assumption. cbn.
  rewrite Hct, contains_app, Hj. reflexivity.
Qed.

(** X15. [close] does not forget the session it closed: on a client
    that owns its session, each further [close] closes that session
    again. *)
Theorem repeated_close n s st :
  session (self st) = Some s ->
  _close_session (self st) = true ->
  closed (trace (run (replicate n call_close) st))
  = closed (trace st) ++ replicate n s.
Proof.
  revert st. induction n as [|n IH]; intros st Hs Hc; cbn [replicate].
  - cbn. rewrite app_nil_r. reflexivity.
  - change (run (call_close :: replicate n call_close) st)
      with (run (replicate n call_close) (snd (close st))).
    rewrite IH; rewrite close_run; cbn [snd self trace]; try assumption.
    rewrite Hs, Hc. unfold closed. rewrite omap_app. cbn.
    rewrite <- app_assoc. reflexivity.
Qed.

(** X16. [async with] on a client built without a session: when the
    body makes a request, the session opened for it is closed on leaving
    the block, whether the body returned or raised, and the block
    returns or raises what the body did. *)
Theorem async_with_releases {A} (body : WithingsClient -> M A)
    v uri data st :
  session (self st) = None ->
  snd (body (self st) st) = after_request v uri data st ->
  closed (trace (snd (async_with body st)))
  = closed (trace st) ++ [next_session st] /\
  fst (async_with body st) = fst (body (self st) st).
Proof.
  intros Hs Hbody. unfold async_with, __aenter__, __aexit__, get_self.
  destruct (body (self st) st) as [result st2] eqn:Hb. cbn [snd] in Hbody.
  subst st2. rewrite close_run. cbn [fst snd trace].
  split; [|reflexivity].
  unfold after_request. rewrite Hs. cbn.
  unfold closed. rewrite !omap_app. cbn. rewrite !app_nil_r. reflexivity.
Qed.

End ClientMore.

(** ** The package *)

(** X17. [__all__] names exactly what [__init__.py] imports, each name
    once, and every error class of the package is among them. *)
Theorem all_names_imported :
  NoDup package.__all__ /\
  (forall name, In name package.__all__ <-> In name package.imported) /\
  (forall kind, In (package.class_name kind) package.__all__).
Proof.
  split; [|split].
  - compute_done.
  - assert (Hto : Forall (fun x => x ∈ package.imported) package.__all__)
      by compute_done.
    assert (Hfrom : Forall (fun x => x ∈ package.__all__) package.imported)
      by compute_done.
    rewrite Forall_forall in Hto, Hfrom. intros name.
    rewrite <- !list_elem_of_In. split; auto.
  - intros kind. destruct kind; cbn; tauto.
Qed.

(** ** The measurement model *)

Section ModelFacts.
Import models.
Context `{Core}.

Lemma decode_enum_inl decl fld c e :
  decode_enum policy decl fld c = inl e ->
  policy = FailFast /\ from_code decl c = None /\
  field e = fld /\ code e = c.
Proof.
  unfold decode_enum. destruct (from_code decl c); [discriminate|].
  destruct policy; [|discriminate]. intros [= <-]. auto.
Qed.

Lemma traverse_inr {A B} (f : A -> DecodeError + B) l ys :
  traverse f l = inr ys -> Forall2 (fun x y => f x = inr y) l ys.
Proof.
  revert ys. induction l as [|x l IH]; cbn; intros ys.
  - intros [= <-]. constructor.
  - destruct (f x) as [e|y] eqn:Hx; [discriminate|].
    destruct (traverse f l) as [e|ys'] eqn:Hl; [discriminate|].
    intros [= <-]. constructor; auto.
Qed.

Lemma traverse_inl {A B} (f : A -> DecodeError + B) l e :
  traverse f l = inl e -> exists x, In x l /\ f x = inl e.
Proof.
  induction l as [|x l IH]; cbn; [discriminate|].
  destruct (f x) as [e'|y] eqn:Hx.
  - intros [= <-]. eauto.
  - destruct (traverse f l) as [e'|ys']; [|discriminate].
    intros [= <-]. destruct IH as (x' & Hin & Hx'); eauto.
Qed.

(** C5. [MeasurementGroup.from_api] either returns a group whose
    [measurements] has one element per entry of [measures], the i-th
    being [Measurement.from_api] of the i-th entry, or, under the
    fail-fast policy only, stops with the decode error of a code of the
    payload that the tables do not know. *)
Theorem from_api_preserves_order raw :
  match MeasurementGroup_from_api raw with
  | inr g =>
      length (measurements g) = length (raw_measures raw) /\
      forall i r, raw_measures raw !! i = Some r ->
        exists m, measurements g !! i = Some m /\
                  Measurement_from_api r = inr m
  | inl e =>
      policy = FailFast /\
      ((field e = "category" /\ code e = raw_category raw /\
        from_code MeasurementGroupCategory_decl (code e) = None) \/
       (field e = "attribution" /\ code e = raw_attribution raw /\
        from_code MeasurementGroupAttribution_decl (code e) = None) \/
       (field e = "type" /\
        (exists r, In r (raw_measures raw) /\ code e = raw_type r) /\
        from_code MeasurementType_decl (code e) = None) \/
       (field e = "model" /\ raw_model raw = Some (code e) /\
        from_code DeviceModel_decl (code e) = None))
  end.
Proof.
  unfold MeasurementGroup_from_api.
  destruct (decode_enum policy MeasurementGroupCategory_decl _ _)
    as [e|cat] eqn:Hcat.
  { apply decode_enum_inl in Hcat as (Hp & Hn & Hf & Hc).
    split; [assumption|]. left. rewrite Hc. auto. }
  destruct (decode_enum policy MeasurementGroupAttribution_decl _ _)
    as [e|att] eqn:Hatt.
  { apply decode_enum_inl in Hatt as (Hp & Hn & Hf & Hc).
    split; [assumption|]. right; left. rewrite Hc. auto. }
  destruct (traverse Measurement_from_api (raw_measures raw))
    as [e|ms] eqn:Hms.
  { apply traverse_inl in Hms as (r & Hin & Hr).
    unfold Measurement_from_api in Hr.
    destruct (decode_enum policy MeasurementType_decl "type" (raw_type r))
      as [e'|t] eqn:Ht; [|discriminate].
    injection Hr as ->.
    apply decode_enum_inl in Ht as (Hp & Hn & Hf & Hc).
    split; [assumption|]. right; right; left. rewrite Hc. eauto. }
  destruct (raw_model raw) as [c|] eqn:Hmodel.
  - destruct (decode_enum policy DeviceModel_decl "model" c)
      as [e|mdl] eqn:Hmdl.
    { apply decode_enum_inl in Hmdl as (Hp & Hn & Hf & Hc).
      split; [assumption|]. right; right; right. rewrite Hc. auto. }
    cbn. apply traverse_inr in Hms. split.
    + symmetry. eapply Forall2_length; eassumption.
    + intros i r Hi.
      destruct (Forall2_lookup_l _ _ _ _ _ Hms Hi) as (m & Hm & Hrm). eauto.
  - cbn. apply traverse_inr in Hms. split.
    + symmetry. eapply Forall2_length; eassumption.
    + intros i r Hi.
      destruct (Forall2_lookup_l _ _ _ _ _ Hms Hi) as (m & Hm & Hrm). eauto.
Qed.

End ModelFacts.

(** ** The unit decoder *)

Section DecoderFacts.
Import SpecFloat unit_decoder.






End DecoderFacts.

(** ** The aggregator *)

Section AggregatorFacts.
Import models helpers.
Context `{Core}.

Implicit Types (t : MeasurementType) (v : float) (ts : Z).
Implicit Types (e : MeasurementType * float * Z).
Implicit Types (es : list (MeasurementType * float * Z)).
Implicit Types (best : gmap MeasurementType (float * Z)).

Lemma keep_latest_lookup best e t :
  keep_latest best e !! t
  = if decide (t = e.1.1)
    then Some match best !! t with
              | Some (v', ts') =>
                  if ts' <=? e.2 then (e.1.2, e.2) else (v', ts')
              | None => (e.1.2, e.2)
              end
    else best !! t.
Proof.
  unfold keep_latest. destruct (decide (t = e.1.1)) as [->|Hne].
  - destruct (best !! e.1.1) as [[v' ts']|] eqn:Hb.
    + destruct (ts' <=? e.2).
      * apply lookup_insert_eq.
      * assumption.
    + apply lookup_insert_eq.
  - destruct (best !! e.1.1) as [[v' ts']|].
    + destruct (ts' <=? e.2); [|reflexivity].
      apply lookup_insert_ne. congruence.
    + apply lookup_insert_ne. congruence.
Qed.

Lemma winners_snoc es e : winners (es ++ [e]) = keep_latest (winners es) e.
Proof. unfold winners. rewrite fold_left_app. reflexivity. Qed.

Lemma snoc_split {A} (l : list A) a l1 x l2 :
  l ++ [a] = l1 ++ x :: l2 ->
  (l2 = [] /\ l = l1 /\ a = x) \/
  (exists l2', l2 = l2' ++ [a] /\ l = l1 ++ x :: l2').
Proof.
  destruct l2 as [|y l2' _] using rev_ind; intros Heq.
  - left. apply app_inj_tail in Heq as [-> ->]. auto.
  - right. exists l2'.
    change (l ++ [a] = l1 ++ (x :: l2') ++ [y]) in Heq.
    rewrite app_assoc in Heq. apply app_inj_tail in Heq as [-> ->]. auto.
Qed.

(** No winner for a type means no entry of the type. *)
Lemma winners_None es t :
  winners es !! t = None <-> forall v ts, ~ In (t, v, ts) es.
Proof.
  induction es as [|[[t0 v0] ts0] es IH] using rev_ind.
  - split; [intros _ v ts []|reflexivity].
  - rewrite winners_snoc, keep_latest_lookup. cbn [fst snd].
    destruct (decide (t = t0)) as [->|Hne].
    + split; [discriminate|]. intros Hno. exfalso.
      apply (Hno v0 ts0). apply in_or_app. right. left. reflexivity.
    + rewrite IH. split; intros Hno v ts Hin.
      * apply in_app_or in Hin as [Hin|[[= -> _ _]|[]]]; [|congruence].
        exact (Hno v ts Hin).
      * apply (Hno v ts). apply in_or_app. auto.
Qed.

(** The winner of a type splits the entries: those before it are not
    later than it, those after it are strictly earlier. *)
Lemma winners_Some es t v ts :
  winners es !! t = Some (v, ts) <->
  exists l1 l2,
    es = l1 ++ (t, v, ts) :: l2 /\
    (forall v' ts', In (t, v', ts') l1 -> ts' <= ts) /\
    (forall v' ts', In (t, v', ts') l2 -> ts' < ts).
Proof.
  revert v ts. induction es as [|[[t0 v0] ts0] es IH] using rev_ind;
    intros v ts.
  - split; [discriminate|]. intros (l1 & l2 & Heq & _).
    destruct l1; discriminate.
  - rewrite winners_snoc, keep_latest_lookup. cbn [fst snd].
    destruct (decide (t = t0)) as [->|Hne].
    + destruct (winners es !! t0) as [[v1 ts1]|] eqn:Hw.
      * pose proof (proj1 (IH v1 ts1) eq_refl) as (k1 & k2 & Hes & Hk1 & Hk2).
        assert (Hall : forall v' ts', In (t0, v', ts') es -> ts' <= ts1).
        { intros v' ts' Hin. rewrite Hes in Hin.
          apply in_app_or in Hin as [Hin|[[= _ ->]|Hin]].
          - eauto.
          - lia.
          - apply Hk2 in Hin. lia. }
        assert (Hwin : In (t0, v1, ts1) es).
        { rewrite Hes. apply in_or_app. right. left. reflexivity. }
        destruct (ts1 <=? ts0) eqn:Hle.
        -- apply Z.leb_le in Hle. split.
           ++ intros [= <- <-]. exists es, []. split; [reflexivity|].
              split; [|intros ? ? []].
              intros v' ts' Hin. apply Hall in Hin. lia.
           ++ intros (l1 & l2 & Heq & Hl1 & Hl2).
              apply snoc_split in Heq
                as [(-> & -> & [= <- <-]) | (l2' & -> & ->)];
                [reflexivity|].
              exfalso.
              assert (ts0 < ts).
              { apply (Hl2 v0). apply in_or_app. right. left. reflexivity. }
              assert (ts <= ts1).
              { apply (Hall v). apply in_or_app. right. left. reflexivity. }
              lia.
        -- apply Z.leb_gt in Hle. split.
           ++ intros [= <- <-]. exists k1, (k2 ++ [(t0, v0, ts0)]).
              split; [rewrite Hes, <- app_assoc; reflexivity|].
              split; [assumption|].
              intros v' ts' Hin.
              apply in_app_or in Hin as [Hin|[[= _ ->]|[]]]; eauto.
           ++ intros (l1 & l2 & Heq & Hl1 & Hl2).
              apply snoc_split in Heq
                as [(-> & -> & [= <- <-]) | (l2' & -> & ->)].
              ** exfalso. apply Hl1 in Hwin. lia.
              ** apply IH. exists l1, l2'.
                 split; [reflexivity|]. split; [assumption|].
                 intros v' ts' Hin. apply (Hl2 v').
                 apply in_or_app. auto.
      * pose proof (proj1 (winners_None es t0) Hw) as Hno. split.
        -- intros [= <- <-]. exists es, []. split; [reflexivity|].
           split; [|intros ? ? []].
           intros v' ts' Hin. destruct (Hno _ _ Hin).
        -- intros (l1 & l2 & Heq & Hl1 & Hl2).
           apply snoc_split in Heq
             as [(-> & -> & [= <- <-]) | (l2' & -> & ->)];
             [reflexivity|].
           exfalso. apply (Hno v ts). apply in_or_app. right. left.
           reflexivity.
    + rewrite IH. split.
      * intros (l1 & l2 & -> & Hl1 & Hl2).
        exists l1, (l2 ++ [(t0, v0, ts0)]).
        split; [rewrite <- app_assoc; reflexivity|].
        split; [assumption|].
        intros v' ts' Hin.
        apply in_app_or in Hin as [Hin|[[= -> _ _]|[]]];
          [eauto|congruence].
      * intros (l1 & l2 & Heq & Hl1 & Hl2).
        apply snoc_split in Heq
          as [(-> & -> & [= -> _ _]) | (l2' & -> & ->)];
          [congruence|].
        exists l1, l2'. split; [reflexivity|]. split; [assumption|].
        intros v' ts' Hin. apply (Hl2 v'). apply in_or_app. auto.
Qed.

(** Filtering on the type removes the winners of the types filtered out
    and leaves the others as they are. *)
Lemma winners_filter types es t :
  winners (List.filter (fun e => selected types e.1.1) es) !! t
  = if selected types t then winners es !! t else None.
Proof.
  induction es as [|e es IH] using rev_ind.
  - cbn. destruct (selected types t); reflexivity.
  - rewrite List.filter_app. cbn [List.filter].
    rewrite (winners_snoc es), (keep_latest_lookup (winners es)).
    destruct (selected types e.1.1) eqn:Hsel.
    + rewrite winners_snoc, keep_latest_lookup, IH.
      destruct (decide (t = e.1.1)) as [->|Hne].
      * rewrite Hsel. reflexivity.
      * reflexivity.
    + rewrite app_nil_r, IH.
      destruct (decide (t = e.1.1)) as [->|Hne].
      * rewrite Hsel. reflexivity.
      * reflexivity.
Qed.

Lemma flatten_cons g groups :
  flatten (g :: groups)
  = ((fun m => (type m, value m, measured_at g)) <$> measurements g)
    ++ flatten groups.
Proof. reflexivity. Qed.

Lemma flatten_app gs1 gs2 : flatten (gs1 ++ gs2) = flatten gs1 ++ flatten gs2.
Proof.
  induction gs1 as [|g gs1 IH]; [reflexivity|].
  rewrite <- app_comm_cons, !flatten_cons, IH, app_assoc. reflexivity.
Qed.

Lemma in_flatten groups t v ts :
  In (t, v, ts) (flatten groups) <->
  exists g m, In g groups /\ In m (measurements g) /\
              type m = t /\ value m = v /\ measured_at g = ts.
Proof.
  induction groups as [|g groups IH].
  - split; [intros []|intros (g & m & [] & _)].
  - rewrite flatten_cons, in_app_iff, IH, <- list_elem_of_In, list_elem_of_fmap.
    split.
    + intros [(m & [= -> -> ->] & Hm) | (g' & m & Hg & Hm & Heq)].
      * exists g, m. apply list_elem_of_In in Hm. cbn. auto.
      * exists g', m. cbn. auto.
    + intros (g' & m & [<- | Hg] & Hm & <- & <- & <-).
      * left. exists m. apply list_elem_of_In in Hm. auto.
      * right. exists g', m. auto.
Qed.

(** Where an entry sits in the flattened input. *)
Lemma flatten_split groups l1 x l2 :
  flatten groups = l1 ++ x :: l2 ->
  exists gs1 g gs2 ms1 m ms2,
    groups = gs1 ++ g :: gs2 /\
    measurements g = ms1 ++ m :: ms2 /\
    x = (type m, value m, measured_at g) /\
    l1 = flatten gs1
         ++ ((fun m => (type m, value m, measured_at g)) <$> ms1) /\
    l2 = ((fun m => (type m, value m, measured_at g)) <$> ms2)
         ++ flatten gs2.
Proof.
  revert l1. induction groups as [|g groups IH]; intros l1 Heq.
  - destruct l1; discriminate.
  - rewrite flatten_cons in Heq.
    apply app_eq_app in Heq as [l [[Hg Hrest] | [Hl1 Hrest]]].
    + destruct l as [|y l].
      * rewrite app_nil_r in Hg. cbn in Hrest. symmetry in Hrest.
        apply (IH []) in Hrest
          as (gs1 & g' & gs2 & ms1 & m & ms2 & -> & Hm & -> & Hl & ->).
        exists (g :: gs1), g', gs2, ms1, m, ms2.
        repeat split; try assumption; try reflexivity.
        rewrite flatten_cons, <- app_assoc, <- Hl, app_nil_r.
        symmetry. assumption.
      * injection Hrest as <- ->.
        apply fmap_app_inv in Hg as (ms1 & ms' & -> & Hms' & Hm).
        symmetry in Hms'.
        apply fmap_cons_inv in Hms' as (m & ms2 & -> & -> & ->).
        exists [], g, groups, ms1, m, ms2.
        repeat split; try assumption; reflexivity.
    + apply IH in Hrest
        as (gs1 & g' & gs2 & ms1 & m & ms2 & -> & Hm & -> & -> & ->).
      exists (g :: gs1), g', gs2, ms1, m, ms2.
      repeat split; try assumption; try reflexivity.
      rewrite Hl1, flatten_cons, <- app_assoc. reflexivity.
Qed.

Lemma winners_flatten groups t v :
  (exists ts, winners (flatten groups) !! t = Some (v, ts)) <->
  latest_last groups t v.
Proof.
  split.
  - intros (ts & Hw). apply winners_Some in Hw as (l1 & l2 & Heq & Hl1 & Hl2).
    apply flatten_split in Heq
      as (gs1 & g & gs2 & ms1 & m & ms2 & -> & Hm & [= -> -> ->] & -> & ->).
    exists gs1, g, gs2, ms1, m, ms2.
    repeat split; try assumption; try reflexivity.
    + intros g' m' Hg' Hm' Ht. apply (Hl1 (value m')).
      apply in_or_app. left. apply in_flatten. exists g', m'. auto.
    + intros m' Hm' Ht.
      enough (measured_at g < measured_at g) by lia.
      apply (Hl2 (value m')). apply in_or_app. left.
      rewrite <- list_elem_of_In, list_elem_of_fmap. exists m'.
      rewrite list_elem_of_In, Ht. auto.
    + intros g' m' Hg' Hm' Ht. apply (Hl2 (value m')).
      apply in_or_app. right. apply in_flatten. exists g', m'. auto.
  - intros (gs1 & g & gs2 & ms1 & m & ms2 & -> & Hm & <- & <- & H1 & H2 & H3).
    exists (measured_at g). apply winners_Some.
    exists (flatten gs1
            ++ ((fun m => (type m, value m, measured_at g)) <$> ms1)),
           (((fun m => (type m, value m, measured_at g)) <$> ms2)
            ++ flatten gs2).
    split; [|split].
    + rewrite flatten_app, flatten_cons, Hm, fmap_app, fmap_cons,
        <- !app_assoc. reflexivity.
    + intros v' ts' Hin. apply in_app_or in Hin as [Hin|Hin].
      * apply in_flatten in Hin as (g' & m' & Hg' & Hm' & Ht & _ & <-).
        eauto.
      * rewrite <- list_elem_of_In, list_elem_of_fmap in Hin.
        destruct Hin as (m' & [= _ _ ->] & _). lia.
    + intros v' ts' Hin. apply in_app_or in Hin as [Hin|Hin].
      * rewrite <- list_elem_of_In, list_elem_of_fmap in Hin.
        destruct Hin as (m' & [= Ht _ _] & Hm').
        rewrite list_elem_of_In in Hm'. destruct (H2 m' Hm'). congruence.
      * apply in_flatten in Hin as (g' & m' & Hg' & Hm' & Ht & _ & <-).
        eauto.
Qed.

(** C1. [aggregate_measurements] maps a type to a value exactly when
    the type passes the optional filter and the value is that of the
    measurement of the type with the latest [measured_at], the one later
    in the order of the input among those of equal [measured_at]. *)
Theorem aggregate_measurements_latest groups measurement_types t v :
  aggregate_measurements groups measurement_types !! t = Some v <->
  selected measurement_types t = true /\ latest_last groups t v.
Proof.
  unfold aggregate_measurements.
  rewrite lookup_fmap, winners_filter, <- winners_flatten.
  destruct (selected measurement_types t).
  - destruct (winners (flatten groups) !! t) as [[v' ts]|]; cbn.
    + split.
      * intros [= ->]. eauto.
      * intros (_ & ts' & [= -> _]). reflexivity.
    + split; [discriminate|]. intros (_ & ts' & Hts). discriminate.
  - cbn. split; [discriminate|]. intros [Hf _]. discriminate.
Qed.

(** C6. [aggregate_measurements] is a total function to mappings; it
    maps no type for an empty input, maps no type when the filter lets
    no measurement of the input through, and leaves out every type that
    no measurement of the input has. *)
Theorem aggregate_measurements_total groups measurement_types :
  aggregate_measurements [] measurement_types = ∅ /\
  ((forall g m, In g groups -> In m (measurements g) ->
                selected measurement_types (type m) = false) ->
   aggregate_measurements groups measurement_types = ∅) /\
  (forall t,
     (forall g m, In g groups -> In m (measurements g) -> type m <> t) ->
     aggregate_measurements groups measurement_types !! t = None).
Proof.
  assert (Habsent : forall t,
    (forall g m, In g groups -> In m (measurements g) ->
                 type m = t -> selected measurement_types t = false) ->
    aggregate_measurements groups measurement_types !! t = None).
  { intros t Hno. unfold aggregate_measurements.
    rewrite lookup_fmap, winners_filter.
    destruct (selected measurement_types t) eqn:Hsel; [|reflexivity].
    replace (winners (flatten groups) !! t) with (@None (float * Z));
      [reflexivity|].
    symmetry. apply winners_None. intros v ts Hin.
    apply in_flatten in Hin as (g & m & Hg & Hm & Ht & _).
    discriminate (Hno g m Hg Hm Ht). }
  split; [|split].
  - unfold aggregate_measurements. cbn. apply fmap_empty.
  - intros Hnone. apply map_eq. intros t. rewrite lookup_empty.
    apply Habsent. intros g m Hg Hm <-. eauto.
  - intros t Hno. apply Habsent. intros g m Hg Hm Ht.
    destruct (Hno g m Hg Hm Ht).
Qed.

End AggregatorFacts.

(** ** The theorems at the sample data *)

Import withings models helpers samples.

(** Section 8: the later group wins, and the filter leaves [weight]
    out. *)
Example aggregate_A_B :
  aggregate_measurements [group_A; group_B] None
  = {[ weight := "72.0"; height := "1.8" ]}.
Proof. vm_compute. reflexivity. Qed.

Example aggregate_A_B_height :
  aggregate_measurements [group_A; group_B] (Some {[ height ]})
  = {[ height := "1.8" ]}.
Proof. vm_compute. reflexivity. Qed.

(** Equal timestamps: the later entry wins, across groups and inside a
    group. *)
Example aggregate_tie :
  aggregate_measurements
    [group 100 [(weight, "70.0")]; group 100 [(weight, "71.0")]] None
  = {[ weight := "71.0" ]} /\
  aggregate_measurements
    [group 100 [(weight, "70.0"); (weight, "71.0")]] None
  = {[ weight := "71.0" ]}.
Proof. split; vm_compute; reflexivity. Qed.

(** An earlier timestamp later in the input does not win. *)
Example aggregate_B_A :
  aggregate_measurements [group_B; group_A] None
  = {[ weight := "72.0"; height := "1.8" ]}.
Proof. vm_compute. reflexivity. Qed.

(** The doubles 70.0 and -5.0 as sign, mantissa and binary exponent. *)
Example doubles :
  unit_decoder.of_int 70 = SpecFloat.S754_finite false 4925812092436480 (-46)
  /\
  unit_decoder.of_int (-5) = SpecFloat.S754_finite true 5629499534213120 (-50).
Proof. split; vm_compute; reflexivity. Qed.


(** At the two groups of section 8, [weight] is taken from group B. *)
Lemma aggregate_measurements_latest_witness :
  aggregate_measurements [group_A; group_B] None !! weight = Some "72.0".
Proof.
  apply (@aggregate_measurements_latest platform
           [group_A; group_B] None weight "72.0").
  split; [reflexivity|].
  exists [group_A], group_B, [], [],
    (@Build_Measurement platform weight "72.0"),
    [@Build_Measurement platform height "1.8"].
  repeat split.
  - intros g' m' [<-|[]] [<-|[]] _. vm_compute. discriminate.
  - intros m' [<-|[]]. discriminate.
  - intros g' m' [].
Defined.

Lemma from_api_preserves_order_witness :
  exists g,
    MeasurementGroup_from_api raw_group = inr g /\
    length (measurements g) = 2%nat /\
    forall i r, raw_measures raw_group !! i = Some r ->
      exists m, measurements g !! i = Some m /\
                Measurement_from_api r = inr m.
Proof.
  pose proof (from_api_preserves_order raw_group) as Hthm.
  destruct (MeasurementGroup_from_api raw_group) as [e|g] eqn:Hg.
  - vm_compute in Hg. discriminate.
  - exists g. split; [reflexivity|]. exact Hthm.
Defined.

Lemma aggregate_measurements_total_witness :
  aggregate_measurements [group_A; group_B] (Some ∅) = ∅ /\
  aggregate_measurements [group_A] None !! height = None.
Proof.
  destruct (aggregate_measurements_total [group_A; group_B] (Some ∅))
    as (_ & Hnone & _).
  destruct (aggregate_measurements_total [group_A] None) as (_ & _ & Habsent).
  split.
  - apply Hnone. intros g m _ _. reflexivity.
  - apply Habsent. intros g m [<-|[]] [<-|[]]. discriminate.
Defined.

(** A client built without a session, used for one call and closed, and
    a client built with session 7 and used the same way. *)
Lemma session_ownership_witness :
  closed (trace (snd (close (run [call_get_goals TimedOut] (start bare 0%nat)))))
  = [0%nat] /\
  closed (trace (run [call_get_goals TimedOut; call_close]
                   (start supplied 8%nat)))
  = [].
Proof.
  split.
  - exact (proj1 (proj2 (proj2 (proj2
             (session_ownership bare 0%nat [call_get_goals TimedOut] eq_refl))))).
  - exact (proj1 (proj2
             (session_ownership supplied 8%nat
                [call_get_goals TimedOut; call_close] eq_refl))
             7%nat eq_refl).
Defined.

(** C9 as the claim has it fails: an envelope that reports status 401,
    served as JSON, is returned to the caller, not raised as one of the
    status errors. *)
Lemma status_code_not_surfaced :
  ~ (forall (st : State) (uri : string)
            (data : option (list (string * Any))) (r : ClientResponse)
            (status : Z) (rest : list (string * Any)),
       contains "application/json"
         (headers_get (headers r) "Content-Type" "") = true ->
       json r = inr (PDict (("status", PInt status) :: rest)) ->
       status <> 0 ->
       exists kind msg info,
         In kind status_kinds /\
         fst (_request uri data (Responded r) st)
         = Raise (Withings kind msg info)).
Proof.
  intros Hclaim.
  destruct (Hclaim (start bare 0%nat) "v2/user" None unauthorized 401
              [("error", PStr "unauthorized")] eq_refl eq_refl ltac:(lia))
    as (kind & msg & info & _ & Hraise).
  vm_compute in Hraise. discriminate.
Qed.

Lemma non_json_response_raises_witness :
  fst (_request "v2/user" None TimedOut (start bare 0%nat))
  = Raise (Withings WithingsConnectionError
             "Timeout occurred while connecting to Withings" [])
  /\
  fst (_request "v2/user" None (Responded html_page) (start bare 0%nat))
  = Raise (Withings WithingsError "Unexpected response from Withings"
             [("Content-Type", "text/html"); ("response", "<html></html>")])
  /\
  fst (_request "v2/user" None (Responded unauthorized) (start bare 0%nat))
  = Ok (PDict [("status", PInt 401); ("error", PStr "unauthorized")]).
Proof.
  destruct (@non_json_response_raises platform "0.1.0" "v2/user" None
              (start bare 0%nat) eq_refl) as (Htimeout & Hraise & Hjson & _).
  split; [exact Htimeout|]. split.
  - exact (Hraise html_page eq_refl).
  - exact (Hjson unauthorized _ eq_refl eq_refl).
Defined.

Lemma request_without_token_witness :
  exists s url,
    last (trace (snd (_request "v2/user" None TimedOut (start bare 0%nat))))
    = Some (RequestSent s 10 METH_POST url
              [ ("User-Agent", "AioWithings/0.1.0");
                ("Accept", "application/json, text/plain, */*");
                ("Authorization", "Bearer None") ] None).
Proof.
  exact (proj1 (@request_without_token platform "0.1.0" "v2/user" None
                  TimedOut (start bare 0%nat) eq_refl eq_refl)).
Defined.

(** ** The further theorems at the sample data *)

Lemma _get_measurements_request_witness :
  exists data,
    snd (_get_measurements (Some [1; 4]) [("action", PStr "other")] TimedOut
           (start bare 0%nat))
    = after_request "0.1.0" "measure" (Some data) (start bare 0%nat) /\
    dict_get data "action" = Some (PStr "getmeas") /\
    dict_get data "meastypes" = Some (PStr "1,4").
Proof.
  destruct (@_get_measurements_request platform client_models "0.1.0"
              (Some [1; 4]) [("action", PStr "other")] TimedOut
              (start bare 0%nat) eq_refl)
    as (data & Hst & Haction & Htypes & _).
  exists data. split; [exact Hst|]. split; [exact Haction|exact Htypes].
Defined.

(** An empty list of types is sent as an empty [meastypes]. *)
Lemma measurement_requests_witness :
  exists s deadline method url hdrs,
    last (trace (snd (get_measurement_since 1700000000 (Some []) TimedOut
                        (start bare 0%nat))))
    = Some (RequestSent s deadline method url hdrs
              (Some [ ("lastupdate", PFloat "1700000000.0");
                      ("action", PStr "getmeas");
                      ("meastypes", PStr "") ])).
Proof.
  exact (proj1 (@measurement_requests platform client_models "0.1.0"
                  1700000000 0 0 (Some []) TimedOut (start bare 0%nat)
                  eq_refl)).
Defined.

Lemma request_needs_package_metadata_witness :
  @exec uninstalled uninstalled_models (call_get_goals TimedOut)
    (start bare 0%nat)
  = start bare 0%nat.
Proof.
  exact (proj2 (@request_needs_package_metadata uninstalled
                  uninstalled_models eq_refl)
           (call_get_goals TimedOut) TimedOut (start bare 0%nat) eq_refl).
Defined.

Lemma request_after_close_witness :
  sent_on (trace (exec (call_get_goals TimedOut) (snd (close used))))
  = [0%nat; 0%nat] /\
  created (trace (exec (call_get_goals TimedOut) (snd (close used))))
  = [0%nat].
Proof.
  exact (@request_after_close platform client_models "0.1.0"
           (call_get_goals TimedOut) TimedOut 0%nat used
           eq_refl eq_refl eq_refl).
Defined.

Lemma only_close_closes_witness :
  closed (trace (exec (call_get_devices (Failed "ClientError")) used)) = [].
Proof.
  exact (@only_close_closes platform client_models
           (call_get_devices (Failed "ClientError")) used eq_refl).
Defined.

Lemma envelope_without_payload_witness :
  fst (get_devices (Responded goals_only) (start bare 0%nat))
  = Raise (Foreign "KeyError") /\
  fst (get_goals (Responded unauthorized) (start bare 0%nat))
  = Raise (Foreign "KeyError").
Proof.
  split.
  - refine (proj1 (@envelope_without_payload platform client_models "0.1.0"
                     goals_only _ (start bare 0%nat)
                     eq_refl eq_refl eq_refl) _).
    right. exists [("goals", PDict [])]. split; reflexivity.
  - refine (proj1 (proj2 (@envelope_without_payload platform client_models
                            "0.1.0" unauthorized _ (start bare 0%nat)
                            eq_refl eq_refl eq_refl)) _).
    left. reflexivity.
Defined.

Lemma calls_raise_what_request_raises_witness :
  fst (get_devices TimedOut (start bare 0%nat))
  = Raise (Withings WithingsConnectionError
             "Timeout occurred while connecting to Withings" []) /\
  fst (get_goals (Responded html_page) (start bare 0%nat))
  = Raise (Withings WithingsError "Unexpected response from Withings"
             [("Content-Type", "text/html"); ("response", "<html></html>")]).
Proof.
  split.
  - exact (proj1 (@calls_raise_what_request_raises platform client_models
                    "0.1.0" "v2/user" None TimedOut _ (start bare 0%nat)
                    eq_refl eq_refl)).
  - exact (proj1 (proj2 (@calls_raise_what_request_raises platform
                           client_models "0.1.0" "v2/user" None
                           (Responded html_page) _ (start bare 0%nat)
                           eq_refl eq_refl))).
Defined.

Lemma get_devices_in_order_witness :
  fst (get_devices (Responded two_devices) (start bare 0%nat))
  = Ok [PStr "scale"; PStr "watch"].
Proof.
  refine (proj1 (@get_devices_in_order platform client_models "0.1.0"
                   two_devices _ _ _ (start bare 0%nat)
                   eq_refl eq_refl eq_refl eq_refl eq_refl) _ _).
  repeat constructor.
Defined.

Lemma measurement_groups_in_order_witness :
  fst (get_measurement_since 1700000000 None (Responded two_groups)
         (start bare 0%nat))
  = Ok [PInt 1; PInt 2].
Proof.
  refine (proj1 (@measurement_groups_in_order platform client_models "0.1.0"
                   two_groups _ _ _ [PInt 1; PInt 2] (start bare 0%nat)
                   eq_refl eq_refl eq_refl eq_refl eq_refl _)
            1700000000 None).
  repeat constructor.
Defined.

Lemma request_timeout_bounds_requests_witness :
  Forall (eq 3)
    (deadlines (trace (run [call_get_goals TimedOut;
                            call_get_devices (Failed "ClientError")]
                         (start hurried 0%nat)))) /\
  fst (_request "v2/user" None TimedOut (start bare 0%nat))
  = Raise (Withings WithingsConnectionError
             "Timeout occurred while connecting to Withings" []) /\
  deadlines (trace (snd (_request "v2/user" None TimedOut (start bare 0%nat))))
  = [10].
Proof.
  split.
  - exact (proj1 (proj2 (@request_timeout_bounds_requests platform
                           client_models))
             hurried 0%nat
             [call_get_goals TimedOut;
              call_get_devices (Failed "ClientError")]).
  - exact (proj2 (proj2 (proj2 (@request_timeout_bounds_requests platform
                                  client_models)))
             "0.1.0" "v2/user" None (start bare 0%nat)
             eq_refl eq_refl eq_refl).
Defined.

(** C8 as the claim has it fails: a caller who sets the private flag at
    construction has the session it supplied closed by [close]. *)
Lemma flagged_client_closes_supplied_session :
  ~ (forall (c : WithingsClient) (next : ClientSession)
            (calls : list Call) (s : ClientSession),
       session c = Some s ->
       ~ In s (closed (trace (run calls (start c next))))).
Proof.
  intros Hclaim.
  apply (Hclaim flagged 8%nat [call_close] 7%nat eq_refl).
  vm_compute. auto.
Qed.

Lemma request_target_witness :
  exists s uri data,
    uri_of (call_get_devices TimedOut) = Some uri /\
    last (trace (exec (call_get_devices TimedOut)
                   (snd (authenticate "secret" (start hurried 0%nat)))))
    = Some (RequestSent s 3 "POST"
              {| scheme := "https"; host := "api.example.com";
                 port := 443; path := ("/" ++ uri)%string |}
              [ ("User-Agent", "AioWithings/0.1.0");
                ("Accept", "application/json, text/plain, */*");
                ("Authorization", "Bearer secret") ]
              data).
Proof.
  refine (@request_target platform client_models "0.1.0"
            (call_get_devices TimedOut) TimedOut
            (snd (authenticate "secret" (start hurried 0%nat)))
            eq_refl eq_refl eq_refl _).
  intros uri [= <-]. reflexivity.
Defined.

Lemma response_without_content_type_witness :
  fst (_request "v2/user" None (Responded headerless) (start bare 0%nat))
  = Raise (Withings WithingsError "Unexpected response from Withings"
             [("Content-Type", ""); ("response", "Bad Gateway")]).
Proof.
  refine (@response_without_content_type platform "0.1.0" "v2/user" None
            headerless (start bare 0%nat) eq_refl _).
  intros k value [[= <- <-]|[]]. vm_compute. discriminate.
Defined.

Lemma content_type_by_substring_witness :
  fst (_request "v2/user" None (Responded two_devices) (start bare 0%nat))
  = Ok (PDict [("status", PInt 0);
               ("body", PDict [("devices",
                                PList [PStr "scale"; PStr "watch"])])]).
Proof.
  exact (@content_type_by_substring platform "0.1.0" "v2/user" None
           two_devices "" "; charset=utf-8" _ (start bare 0%nat)
           eq_refl eq_refl eq_refl).
Defined.

Lemma repeated_close_witness :
  closed (trace (run [call_close; call_close; call_close] used))
  = [0%nat; 0%nat; 0%nat].
Proof.
  exact (@repeated_close platform client_models 3 0%nat used
           eq_refl eq_refl).
Defined.

Lemma async_with_releases_witness :
  closed (trace (snd (async_with (fun _ => get_devices TimedOut)
                        (start bare 0%nat))))
  = [0%nat] /\
  fst (async_with (fun _ => get_devices TimedOut) (start bare 0%nat))
  = Raise (Withings WithingsConnectionError
             "Timeout occurred while connecting to Withings" []).
Proof.
  exact (@async_with_releases platform _ (fun _ => get_devices TimedOut)
           "0.1.0" "v2/user" (Some [("action", PStr "getdevice")])
           (start bare 0%nat) eq_refl eq_refl).
Defined.
